(** * mr_review_tool: the pull-request review pipeline of [app.py]

    A shallow embedding of the four stages of [GitHubPRReviewer]
    ([parse_github_url], [fetch_pr_data], [format_pr_for_review],
    [generate_review]) and of the page [main], and the properties the
    specification states about them.

    Conventions of the model:
    - a Python [str] is a [string]: the sequence of its code points, each
      a number below 0x110000.  A string literal in this file stands for
      the code points of its UTF-8 reading;
    - the classes of code points the interpreter consults (the decimal
      digits that [\d] matches, the printable characters of [repr]) are
      the tables of CPython 3.11, Unicode 14.0.0;
    - a Python value is a [value], the tagged union of what [json()] can
      hand back, so that dynamic field access, truthiness and [str()] are
      the interpreter's and not the specification's;
    - an exception is a value of [exn]; a computation that may raise
      returns a [result];
    - the network and the model API are oracles of an [Env]; every call
      made to them is appended to a trace. *)

From Stdlib Require Import List NArith ZArith Lia Bool DecimalString.
From Stdlib.Strings Require Byte.
Import ListNotations.

(** ** Text *)

Module Text.

(** A code point. *)
Definition char : Type := N.

Inductive string :=
| EmptyString
| String (c : char) (s : string).

Fixpoint append (s1 s2 : string) : string :=
  match s1 with
  | EmptyString => s2
  | String c s1' => String c (append s1' s2)
  end.

Fixpoint length (s : string) : nat :=
  match s with
  | EmptyString => 0
  | String _ s' => S (length s')
  end.

Fixpoint eqb (s1 s2 : string) : bool :=
  match s1, s2 with
  | EmptyString, EmptyString => true
  | String c1 s1', String c2 s2' => N.eqb c1 c2 && eqb s1' s2'
  | _, _ => false
  end.

Fixpoint of_codes (l : list char) : string :=
  match l with
  | [] => EmptyString
  | c :: l' => String c (of_codes l')
  end.

Fixpoint codes (s : string) : list char :=
  match s with
  | EmptyString => []
  | String c s' => c :: codes s'
  end.

(** The text of a string of the Standard Library, all of whose
    characters are below 256. *)
Fixpoint of_stdlib (s : Stdlib.Strings.String.string) : string :=
  match s with
  | Stdlib.Strings.String.EmptyString => EmptyString
  | Stdlib.Strings.String.String a s' =>
      String (Stdlib.Strings.Ascii.N_of_ascii a) (of_stdlib s')
  end.

(** The UTF-8 reading of the literals of this file. *)
Definition continuation (b : Byte.byte) : option N :=
  let n := Byte.to_N b in
  if (128 <=? n)%N && (n <? 192)%N then Some (n - 128)%N else None.

Fixpoint decode (fuel : nat) (l : list Byte.byte) : option (list char) :=
  match fuel with
  | O => match l with [] => Some [] | _ => None end
  | S fuel' =>
      match l with
      | [] => Some []
      | b :: l1 =>
          let n := Byte.to_N b in
          if (n <? 128)%N then option_map (cons n) (decode fuel' l1)
          else if (n <? 192)%N then None
          else if (n <? 224)%N then
            match l1 with
            | b1 :: l2 =>
                match continuation b1 with
                | Some c1 =>
                    option_map (cons ((n - 192) * 64 + c1)%N) (decode fuel' l2)
                | None => None
                end
            | _ => None
            end
          else if (n <? 240)%N then
            match l1 with
            | b1 :: b2 :: l3 =>
                match continuation b1, continuation b2 with
                | Some c1, Some c2 =>
                    option_map (cons ((n - 224) * 4096 + c1 * 64 + c2)%N)
                      (decode fuel' l3)
                | _, _ => None
                end
            | _ => None
            end
          else
            match l1 with
            | b1 :: b2 :: b3 :: l4 =>
                match continuation b1, continuation b2, continuation b3 with
                | Some c1, Some c2, Some c3 =>
                    option_map
                      (cons ((n - 240) * 262144 + c1 * 4096 + c2 * 64 + c3)%N)
                      (decode fuel' l4)
                | _, _, _ => None
                end
            | _ => None
            end
      end
  end.

Definition byte_of (n : N) : Byte.byte :=
  match Byte.of_N n with
  | Some b => b
  | None => Byte.x00
  end.

Definition encode_char (c : char) : list Byte.byte :=
  (if c <? 128 then [byte_of c]
   else if c <? 2048 then [byte_of (192 + c / 64); byte_of (128 + c mod 64)]
   else if c <? 65536 then
     [byte_of (224 + c / 4096); byte_of (128 + (c / 64) mod 64);
      byte_of (128 + c mod 64)]
   else
     [byte_of (240 + c / 262144); byte_of (128 + (c / 4096) mod 64);
      byte_of (128 + (c / 64) mod 64); byte_of (128 + c mod 64)])%N.

Definition of_utf8 (l : list Byte.byte) : option string :=
  option_map of_codes (decode (List.length l) l).

Definition to_utf8 (s : string) : list Byte.byte := flat_map encode_char (codes s).

End Text.

Export Text.

Declare Scope text_scope.
Delimit Scope text_scope with text.
Bind Scope text_scope with string.
String Notation string Text.of_utf8 Text.to_utf8 : text_scope.
Notation "x ++ y" := (Text.append x y)
  (right associativity, at level 60) : text_scope.
Notation "x =? y" := (Text.eqb x y) (at level 70) : text_scope.
Open Scope text_scope.

(** ** Operations on strings *)

(** The character [/]. *)
Definition slash : char := 47%N.

Module Str.

Fixpoint take (n : nat) (s : string) : string :=
  match n, s with
  | S n', String c s' => String c (take n' s')
  | _, _ => EmptyString
  end.

Fixpoint strip_prefix (p s : string) : option string :=
  match p, s with
  | EmptyString, _ => Some s
  | String a p', String b s' =>
      if N.eqb a b then strip_prefix p' s' else None
  | String _ _, EmptyString => None
  end.

(** [needle in hay] on two strs. *)
Fixpoint contains (needle hay : string) : bool :=
  match strip_prefix needle hay with
  | Some _ => true
  | None =>
      match hay with
      | EmptyString => false
      | String _ hay' => contains needle hay'
      end
  end.

Fixpoint forallb (p : char -> bool) (s : string) : bool :=
  match s with
  | EmptyString => true
  | String c s' => p c && forallb p s'
  end.

Fixpoint take_while (p : char -> bool) (s : string) : string :=
  match s with
  | String c s' => if p c then String c (take_while p s') else EmptyString
  | EmptyString => EmptyString
  end.

Fixpoint concat_all (l : list string) : string :=
  match l with
  | [] => EmptyString
  | s :: l' => s ++ concat_all l'
  end.

Fixpoint drop_while (p : char -> bool) (s : string) : string :=
  match s with
  | String c s' => if p c then drop_while p s' else s
  | EmptyString => EmptyString
  end.

Fixpoint has_char (c : char) (s : string) : bool :=
  match s with
  | EmptyString => false
  | String a s' => N.eqb a c || has_char c s'
  end.

Definition head_ok (p : char -> bool) (s : string) : bool :=
  match s with
  | EmptyString => false
  | String c _ => p c
  end.

End Str.

Definition in_ranges (c : char) (ranges : list (N * N)) : bool :=
  existsb (fun r => (fst r <=? c)%N && (c <=? snd r)%N) ranges.

(** The runs of decimal digits (general category Nd): the characters that
    [\d] matches in a str pattern. *)
Definition decimal_ranges : list (N * N) :=
  [
   (48, 57); (1632, 1641); (1776, 1785); (1984, 1993); (2406, 2415); (2534, 2543);
   (2662, 2671); (2790, 2799); (2918, 2927); (3046, 3055); (3174, 3183); (3302, 3311);
   (3430, 3439); (3558, 3567); (3664, 3673); (3792, 3801); (3872, 3881); (4160, 4169);
   (4240, 4249); (6112, 6121); (6160, 6169); (6470, 6479); (6608, 6617); (6784, 6793);
   (6800, 6809); (6992, 7001); (7088, 7097); (7232, 7241); (7248, 7257); (42528, 42537);
   (43216, 43225); (43264, 43273); (43472, 43481); (43504, 43513); (43600, 43609); (44016, 44025);
   (65296, 65305); (66720, 66729); (68912, 68921); (69734, 69743); (69872, 69881); (69942, 69951);
   (70096, 70105); (70384, 70393); (70736, 70745); (70864, 70873); (71248, 71257); (71360, 71369);
   (71472, 71481); (71904, 71913); (72016, 72025); (72784, 72793); (73040, 73049); (73120, 73129);
   (92768, 92777); (92864, 92873); (93008, 93017); (120782, 120831); (123200, 123209); (123632, 123641);
   (125264, 125273); (130032, 130041)
  ]%N.

Definition is_digit (c : char) : bool := in_ranges c decimal_ranges.

(** [str(n)] on an int. *)
Definition str_of_Z (z : Z) : string :=
  Text.of_stdlib (NilZero.string_of_int (Z.to_int z)).

(** The value a run of decimal digits denotes (what [int(s)] would give). *)
Definition digit_val (c : char) : Z :=
  match find (fun r => (fst r <=? c)%N && (c <=? snd r)%N) decimal_ranges with
  | Some r => Z.of_N ((c - fst r) mod 10)
  | None => 0
  end.

Fixpoint decimal_acc (acc : Z) (s : string) : Z :=
  match s with
  | EmptyString => acc
  | String c s' => decimal_acc (10 * acc + digit_val c) s'
  end.

Definition decimal_value (s : string) : Z := decimal_acc 0 s.

(** ** Python values *)

(** What [json()] can return.  A float is kept as what the program can
    observe of it: whether it is zero (its truth value) and its printed
    text.  A dict keeps its items in insertion order. *)
#[warnings="-register-all"]
Inductive value :=
| VNone
| VBool (b : bool)
| VInt (z : Z)
| VFloat (is_zero : bool) (text : string)
| VStr (s : string)
| VList (l : list value)
| VDict (d : list (string * value)).

Inductive exn_class :=
| KeyError | TypeError | IndexError | AttributeError | OtherException.

Record exn := Exn { exn_cls : exn_class; exn_str : string }.

Inductive result (A : Type) :=
| Ok (a : A)
| Raise (e : exn).
Arguments Ok {A} a.
Arguments Raise {A} e.

(** ** The regular expressions of [re] that the program uses *)

Module Re.

Inductive cset :=
| One (c : char)
| Not (c : char)
| Dig.

Definition mem (c : char) (cs : cset) : bool :=
  match cs with
  | One a => N.eqb a c
  | Not a => negb (N.eqb a c)
  | Dig => is_digit c
  end.

Inductive regex :=
| Eps
| Atom (cs : cset)
| Plus (cs : cset)
| Group (r : regex)
| Cat (r1 r2 : regex).

Fixpoint lit (s : string) : regex :=
  match s with
  | EmptyString => Eps
  | String c s' => Cat (Atom (One c)) (lit s')
  end.

Section Matcher.
Context {A : Type}.

(** Greedy repetition: the longest run first, one character given back
    each time the rest of the pattern fails. *)
Fixpoint star (cs : cset) (s : string) (k : string -> option A) : option A :=
  match s with
  | String c s' =>
      if mem c cs then
        match star cs s' k with
        | Some r => Some r
        | None => k s
        end
      else k s
  | EmptyString => k s
  end.

Definition plus (cs : cset) (s : string) (k : string -> option A) : option A :=
  match s with
  | String c s' => if mem c cs then star cs s' k else None
  | EmptyString => None
  end.
End Matcher.

(** The backtracking matcher.  [gs] are the groups closed so far; the
    groups of the program's pattern are not nested, so they close in the
    order of their numbers. *)
Fixpoint run (r : regex) (s : string) (gs : list string)
    (k : string -> list string -> option (list string)) : option (list string) :=
  match r with
  | Eps => k s gs
  | Atom cs =>
      match s with
      | String c s' => if mem c cs then k s' gs else None
      | EmptyString => None
      end
  | Plus cs => plus cs s (fun rest => k rest gs)
  | Group r' =>
      run r' s gs (fun rest gs' =>
        k rest (gs' ++ [Str.take (Text.length s - Text.length rest) s])%list)
  | Cat r1 r2 => run r1 s gs (fun rest gs' => run r2 rest gs' k)
  end.

(** [re.match(pattern, s)]: anchored at the start, free at the end;
    the result is [match.groups()]. *)
Definition re_match (r : regex) (s : string) : option (list string) :=
  run r s [] (fun _ gs => Some gs).

End Re.

(** ** URL Parser *)

Definition pattern : Re.regex :=
  Re.Cat (Re.lit "https://github.com/")
 (Re.Cat (Re.Group (Re.Plus (Re.Not slash)))
 (Re.Cat (Re.lit "/")
 (Re.Cat (Re.Group (Re.Plus (Re.Not slash)))
 (Re.Cat (Re.lit "/pull/")
         (Re.Group (Re.Plus Re.Dig)))))).

Definition parse_github_url (url : string) : value * value * value :=
  match Re.re_match pattern url with
  | Some [owner; repo; number] => (VStr owner, VStr repo, VStr number)
  | _ => (VNone, VNone, VNone)
  end.

(** ** The interpreter's operations on values *)

Definition nl : string := String 10%N EmptyString.
Definition dquote : char := 34%N.
Definition squote : char := 39%N.
Definition backslash : char := 92%N.

Definition bind {A B} (m : result A) (f : A -> result B) : result B :=
  match m with
  | Ok a => f a
  | Raise e => Raise e
  end.

Declare Scope result_scope.
Delimit Scope result_scope with result.
Notation "x <- m ;; k" := (bind m (fun x => k))
  (at level 61, m at next level, right associativity) : result_scope.

Definition raise {A} (c : exn_class) (msg : string) : result A :=
  Raise (Exn c msg).

Module Py.

Definition hex_digit (n : N) : char :=
  (if n <? 10 then 48 + n else 87 + n)%N.

(** [n] in [width] hexadecimal digits, as in an escape. *)
Fixpoint hex (width : nat) (n : N) : string :=
  match width with
  | O => EmptyString
  | S width' => hex width' (n / 16) ++ String (hex_digit (n mod 16)) EmptyString
  end.

(** The runs of characters that [str.isprintable] refuses. *)
Definition unprintable_ranges : list (N * N) :=
  [
   (0, 31); (127, 160); (173, 173); (888, 889); (896, 899); (907, 907);
   (909, 909); (930, 930); (1328, 1328); (1367, 1368); (1419, 1420); (1424, 1424);
   (1480, 1487); (1515, 1518); (1525, 1541); (1564, 1564); (1757, 1757); (1806, 1807);
   (1867, 1868); (1970, 1983); (2043, 2044); (2094, 2095); (2111, 2111); (2140, 2141);
   (2143, 2143); (2155, 2159); (2191, 2199); (2274, 2274); (2436, 2436); (2445, 2446);
   (2449, 2450); (2473, 2473); (2481, 2481); (2483, 2485); (2490, 2491); (2501, 2502);
   (2505, 2506); (2511, 2518); (2520, 2523); (2526, 2526); (2532, 2533); (2559, 2560);
   (2564, 2564); (2571, 2574); (2577, 2578); (2601, 2601); (2609, 2609); (2612, 2612);
   (2615, 2615); (2618, 2619); (2621, 2621); (2627, 2630); (2633, 2634); (2638, 2640);
   (2642, 2648); (2653, 2653); (2655, 2661); (2679, 2688); (2692, 2692); (2702, 2702);
   (2706, 2706); (2729, 2729); (2737, 2737); (2740, 2740); (2746, 2747); (2758, 2758);
   (2762, 2762); (2766, 2767); (2769, 2783); (2788, 2789); (2802, 2808); (2816, 2816);
   (2820, 2820); (2829, 2830); (2833, 2834); (2857, 2857); (2865, 2865); (2868, 2868);
   (2874, 2875); (2885, 2886); (2889, 2890); (2894, 2900); (2904, 2907); (2910, 2910);
   (2916, 2917); (2936, 2945); (2948, 2948); (2955, 2957); (2961, 2961); (2966, 2968);
   (2971, 2971); (2973, 2973); (2976, 2978); (2981, 2983); (2987, 2989); (3002, 3005);
   (3011, 3013); (3017, 3017); (3022, 3023); (3025, 3030); (3032, 3045); (3067, 3071);
   (3085, 3085); (3089, 3089); (3113, 3113); (3130, 3131); (3141, 3141); (3145, 3145);
   (3150, 3156); (3159, 3159); (3163, 3164); (3166, 3167); (3172, 3173); (3184, 3190);
   (3213, 3213); (3217, 3217); (3241, 3241); (3252, 3252); (3258, 3259); (3269, 3269);
   (3273, 3273); (3278, 3284); (3287, 3292); (3295, 3295); (3300, 3301); (3312, 3312);
   (3315, 3327); (3341, 3341); (3345, 3345); (3397, 3397); (3401, 3401); (3408, 3411);
   (3428, 3429); (3456, 3456); (3460, 3460); (3479, 3481); (3506, 3506); (3516, 3516);
   (3518, 3519); (3527, 3529); (3531, 3534); (3541, 3541); (3543, 3543); (3552, 3557);
   (3568, 3569); (3573, 3584); (3643, 3646); (3676, 3712); (3715, 3715); (3717, 3717);
   (3723, 3723); (3748, 3748); (3750, 3750); (3774, 3775); (3781, 3781); (3783, 3783);
   (3790, 3791); (3802, 3803); (3808, 3839); (3912, 3912); (3949, 3952); (3992, 3992);
   (4029, 4029); (4045, 4045); (4059, 4095); (4294, 4294); (4296, 4300); (4302, 4303);
   (4681, 4681); (4686, 4687); (4695, 4695); (4697, 4697); (4702, 4703); (4745, 4745);
   (4750, 4751); (4785, 4785); (4790, 4791); (4799, 4799); (4801, 4801); (4806, 4807);
   (4823, 4823); (4881, 4881); (4886, 4887); (4955, 4956); (4989, 4991); (5018, 5023);
   (5110, 5111); (5118, 5119); (5760, 5760); (5789, 5791); (5881, 5887); (5910, 5918);
   (5943, 5951); (5972, 5983); (5997, 5997); (6001, 6001); (6004, 6015); (6110, 6111);
   (6122, 6127); (6138, 6143); (6158, 6158); (6170, 6175); (6265, 6271); (6315, 6319);
   (6390, 6399); (6431, 6431); (6444, 6447); (6460, 6463); (6465, 6467); (6510, 6511);
   (6517, 6527); (6572, 6575); (6602, 6607); (6619, 6621); (6684, 6685); (6751, 6751);
   (6781, 6782); (6794, 6799); (6810, 6815); (6830, 6831); (6863, 6911); (6989, 6991);
   (7039, 7039); (7156, 7163); (7224, 7226); (7242, 7244); (7305, 7311); (7355, 7356);
   (7368, 7375); (7419, 7423); (7958, 7959); (7966, 7967); (8006, 8007); (8014, 8015);
   (8024, 8024); (8026, 8026); (8028, 8028); (8030, 8030); (8062, 8063); (8117, 8117);
   (8133, 8133); (8148, 8149); (8156, 8156); (8176, 8177); (8181, 8181); (8191, 8207);
   (8232, 8239); (8287, 8303); (8306, 8307); (8335, 8335); (8349, 8351); (8385, 8399);
   (8433, 8447); (8588, 8591); (9255, 9279); (9291, 9311); (11124, 11125); (11158, 11158);
   (11508, 11512); (11558, 11558); (11560, 11564); (11566, 11567); (11624, 11630); (11633, 11646);
   (11671, 11679); (11687, 11687); (11695, 11695); (11703, 11703); (11711, 11711); (11719, 11719);
   (11727, 11727); (11735, 11735); (11743, 11743); (11870, 11903); (11930, 11930); (12020, 12031);
   (12246, 12271); (12284, 12288); (12352, 12352); (12439, 12440); (12544, 12548); (12592, 12592);
   (12687, 12687); (12772, 12783); (12831, 12831); (42125, 42127); (42183, 42191); (42540, 42559);
   (42744, 42751); (42955, 42959); (42962, 42962); (42964, 42964); (42970, 42993); (43053, 43055);
   (43066, 43071); (43128, 43135); (43206, 43213); (43226, 43231); (43348, 43358); (43389, 43391);
   (43470, 43470); (43482, 43485); (43519, 43519); (43575, 43583); (43598, 43599); (43610, 43611);
   (43715, 43738); (43767, 43776); (43783, 43784); (43791, 43792); (43799, 43807); (43815, 43815);
   (43823, 43823); (43884, 43887); (44014, 44015); (44026, 44031); (55204, 55215); (55239, 55242);
   (55292, 63743); (64110, 64111); (64218, 64255); (64263, 64274); (64280, 64284); (64311, 64311);
   (64317, 64317); (64319, 64319); (64322, 64322); (64325, 64325); (64451, 64466); (64912, 64913);
   (64968, 64974); (64976, 65007); (65050, 65055); (65107, 65107); (65127, 65127); (65132, 65135);
   (65141, 65141); (65277, 65280); (65471, 65473); (65480, 65481); (65488, 65489); (65496, 65497);
   (65501, 65503); (65511, 65511); (65519, 65531); (65534, 65535); (65548, 65548); (65575, 65575);
   (65595, 65595); (65598, 65598); (65614, 65615); (65630, 65663); (65787, 65791); (65795, 65798);
   (65844, 65846); (65935, 65935); (65949, 65951); (65953, 65999); (66046, 66175); (66205, 66207);
   (66257, 66271); (66300, 66303); (66340, 66348); (66379, 66383); (66427, 66431); (66462, 66462);
   (66500, 66503); (66518, 66559); (66718, 66719); (66730, 66735); (66772, 66775); (66812, 66815);
   (66856, 66863); (66916, 66926); (66939, 66939); (66955, 66955); (66963, 66963); (66966, 66966);
   (66978, 66978); (66994, 66994); (67002, 67002); (67005, 67071); (67383, 67391); (67414, 67423);
   (67432, 67455); (67462, 67462); (67505, 67505); (67515, 67583); (67590, 67591); (67593, 67593);
   (67638, 67638); (67641, 67643); (67645, 67646); (67670, 67670); (67743, 67750); (67760, 67807);
   (67827, 67827); (67830, 67834); (67868, 67870); (67898, 67902); (67904, 67967); (68024, 68027);
   (68048, 68049); (68100, 68100); (68103, 68107); (68116, 68116); (68120, 68120); (68150, 68151);
   (68155, 68158); (68169, 68175); (68185, 68191); (68256, 68287); (68327, 68330); (68343, 68351);
   (68406, 68408); (68438, 68439); (68467, 68471); (68498, 68504); (68509, 68520); (68528, 68607);
   (68681, 68735); (68787, 68799); (68851, 68857); (68904, 68911); (68922, 69215); (69247, 69247);
   (69290, 69290); (69294, 69295); (69298, 69375); (69416, 69423); (69466, 69487); (69514, 69551);
   (69580, 69599); (69623, 69631); (69710, 69713); (69750, 69758); (69821, 69821); (69827, 69839);
   (69865, 69871); (69882, 69887); (69941, 69941); (69960, 69967); (70007, 70015); (70112, 70112);
   (70133, 70143); (70162, 70162); (70207, 70271); (70279, 70279); (70281, 70281); (70286, 70286);
   (70302, 70302); (70314, 70319); (70379, 70383); (70394, 70399); (70404, 70404); (70413, 70414);
   (70417, 70418); (70441, 70441); (70449, 70449); (70452, 70452); (70458, 70458); (70469, 70470);
   (70473, 70474); (70478, 70479); (70481, 70486); (70488, 70492); (70500, 70501); (70509, 70511);
   (70517, 70655); (70748, 70748); (70754, 70783); (70856, 70863); (70874, 71039); (71094, 71095);
   (71134, 71167); (71237, 71247); (71258, 71263); (71277, 71295); (71354, 71359); (71370, 71423);
   (71451, 71452); (71468, 71471); (71495, 71679); (71740, 71839); (71923, 71934); (71943, 71944);
   (71946, 71947); (71956, 71956); (71959, 71959); (71990, 71990); (71993, 71994); (72007, 72015);
   (72026, 72095); (72104, 72105); (72152, 72153); (72165, 72191); (72264, 72271); (72355, 72367);
   (72441, 72703); (72713, 72713); (72759, 72759); (72774, 72783); (72813, 72815); (72848, 72849);
   (72872, 72872); (72887, 72959); (72967, 72967); (72970, 72970); (73015, 73017); (73019, 73019);
   (73022, 73022); (73032, 73039); (73050, 73055); (73062, 73062); (73065, 73065); (73103, 73103);
   (73106, 73106); (73113, 73119); (73130, 73439); (73465, 73647); (73649, 73663); (73714, 73726);
   (74650, 74751); (74863, 74863); (74869, 74879); (75076, 77711); (77811, 77823); (78895, 82943);
   (83527, 92159); (92729, 92735); (92767, 92767); (92778, 92781); (92863, 92863); (92874, 92879);
   (92910, 92911); (92918, 92927); (92998, 93007); (93018, 93018); (93026, 93026); (93048, 93052);
   (93072, 93759); (93851, 93951); (94027, 94030); (94088, 94094); (94112, 94175); (94181, 94191);
   (94194, 94207); (100344, 100351); (101590, 101631); (101641, 110575); (110580, 110580); (110588, 110588);
   (110591, 110591); (110883, 110927); (110931, 110947); (110952, 110959); (111356, 113663); (113771, 113775);
   (113789, 113791); (113801, 113807); (113818, 113819); (113824, 118527); (118574, 118575); (118599, 118607);
   (118724, 118783); (119030, 119039); (119079, 119080); (119155, 119162); (119275, 119295); (119366, 119519);
   (119540, 119551); (119639, 119647); (119673, 119807); (119893, 119893); (119965, 119965); (119968, 119969);
   (119971, 119972); (119975, 119976); (119981, 119981); (119994, 119994); (119996, 119996); (120004, 120004);
   (120070, 120070); (120075, 120076); (120085, 120085); (120093, 120093); (120122, 120122); (120127, 120127);
   (120133, 120133); (120135, 120137); (120145, 120145); (120486, 120487); (120780, 120781); (121484, 121498);
   (121504, 121504); (121520, 122623); (122655, 122879); (122887, 122887); (122905, 122906); (122914, 122914);
   (122917, 122917); (122923, 123135); (123181, 123183); (123198, 123199); (123210, 123213); (123216, 123535);
   (123567, 123583); (123642, 123646); (123648, 124895); (124903, 124903); (124908, 124908); (124911, 124911);
   (124927, 124927); (125125, 125126); (125143, 125183); (125260, 125263); (125274, 125277); (125280, 126064);
   (126133, 126208); (126270, 126463); (126468, 126468); (126496, 126496); (126499, 126499); (126501, 126502);
   (126504, 126504); (126515, 126515); (126520, 126520); (126522, 126522); (126524, 126529); (126531, 126534);
   (126536, 126536); (126538, 126538); (126540, 126540); (126544, 126544); (126547, 126547); (126549, 126550);
   (126552, 126552); (126554, 126554); (126556, 126556); (126558, 126558); (126560, 126560); (126563, 126563);
   (126565, 126566); (126571, 126571); (126579, 126579); (126584, 126584); (126589, 126589); (126591, 126591);
   (126602, 126602); (126620, 126624); (126628, 126628); (126634, 126634); (126652, 126703); (126706, 126975);
   (127020, 127023); (127124, 127135); (127151, 127152); (127168, 127168); (127184, 127184); (127222, 127231);
   (127406, 127461); (127491, 127503); (127548, 127551); (127561, 127567); (127570, 127583); (127590, 127743);
   (128728, 128732); (128749, 128751); (128765, 128767); (128884, 128895); (128985, 128991); (129004, 129007);
   (129009, 129023); (129036, 129039); (129096, 129103); (129114, 129119); (129160, 129167); (129198, 129199);
   (129202, 129279); (129620, 129631); (129646, 129647); (129653, 129655); (129661, 129663); (129671, 129679);
   (129709, 129711); (129723, 129727); (129734, 129743); (129754, 129759); (129768, 129775); (129783, 129791);
   (129939, 129939); (129995, 130031); (130042, 131071); (173792, 173823); (177977, 177983); (178206, 178207);
   (183970, 183983); (191457, 194559); (195102, 196607); (201547, 917759); (918000, 1114111)
  ]%N.

Definition printable (c : char) : bool := negb (in_ranges c unprintable_ranges).

Definition escape_char (q c : char) : string :=
  if N.eqb c backslash then String backslash (String backslash "")
  else if N.eqb c q then String backslash (String q "")
  else if (c =? 9)%N then String backslash "t"
  else if (c =? 10)%N then String backslash "n"
  else if (c =? 13)%N then String backslash "r"
  else if printable c then String c ""
  else if (c <? 256)%N then String backslash ("x" ++ hex 2 c)
  else if (c <? 65536)%N then String backslash ("u" ++ hex 4 c)
  else String backslash ("U" ++ hex 8 c).

Fixpoint escape (q : char) (s : string) : string :=
  match s with
  | EmptyString => EmptyString
  | String c s' => escape_char q c ++ escape q s'
  end.

(** [repr(s)] on a str. *)
Definition repr_str (s : string) : string :=
  let q := if Str.has_char squote s && negb (Str.has_char dquote s)
           then dquote else squote in
  String q (escape q s ++ String q "").

Fixpoint join (sep : string) (l : list string) : string :=
  match l with
  | [] => ""
  | [x] => x
  | x :: l' => x ++ sep ++ join sep l'
  end.

Fixpoint repr (v : value) : string :=
  match v with
  | VNone => "None"
  | VBool true => "True"
  | VBool false => "False"
  | VInt z => str_of_Z z
  | VFloat _ t => t
  | VStr s => repr_str s
  | VList l => "[" ++ join ", " (map repr l) ++ "]"
  | VDict d =>
      "{" ++ join ", " (map (fun kv => repr_str (fst kv) ++ ": " ++ repr (snd kv)) d)
          ++ "}"
  end.

(** [str(v)], which is also what an f-string field [{v}] prints. *)
Definition str (v : value) : string :=
  match v with
  | VStr s => s
  | _ => repr v
  end.

Definition type_name (v : value) : string :=
  match v with
  | VNone => "NoneType"
  | VBool _ => "bool"
  | VInt _ => "int"
  | VFloat _ _ => "float"
  | VStr _ => "str"
  | VList _ => "list"
  | VDict _ => "dict"
  end.

Definition truthy (v : value) : bool :=
  match v with
  | VNone => false
  | VBool b => b
  | VInt z => negb (z =? 0)%Z
  | VFloat is_zero _ => negb is_zero
  | VStr s => negb (s =? "")
  | VList l => match l with [] => false | _ => true end
  | VDict d => match d with [] => false | _ => true end
  end.

(** [a or b] *)
Definition or_ (a b : value) : value := if truthy a then a else b.

Fixpoint lookup (key : string) (d : list (string * value)) : option value :=
  match d with
  | [] => None
  | (k, v) :: d' => if k =? key then Some v else lookup key d'
  end.

(** [v[key]] with a str key. *)
Definition getitem (v : value) (key : string) : result value :=
  match v with
  | VDict d =>
      match lookup key d with
      | Some x => Ok x
      | None => raise KeyError (repr_str key)
      end
  | VList _ => raise TypeError "list indices must be integers or slices, not str"
  | VStr _ => raise TypeError "string indices must be integers, not 'str'"
  | _ => raise TypeError ("'" ++ type_name v ++ "' object is not subscriptable")
  end.

(** [len(v)] *)
Definition len (v : value) : result Z :=
  match v with
  | VStr s => Ok (Z.of_nat (Text.length s))
  | VList l => Ok (Z.of_nat (List.length l))
  | VDict d => Ok (Z.of_nat (List.length d))
  | _ => raise TypeError ("object of type '" ++ type_name v ++ "' has no len()")
  end.

Fixpoint chars (s : string) : list value :=
  match s with
  | EmptyString => []
  | String c s' => VStr (String c "") :: chars s'
  end.

(** The items a [for] loop over [v] visits. *)
Definition iter (v : value) : result (list value) :=
  match v with
  | VList l => Ok l
  | VDict d => Ok (map (fun kv => VStr (fst kv)) d)
  | VStr s => Ok (chars s)
  | _ => raise TypeError ("'" ++ type_name v ++ "' object is not iterable")
  end.

(** [v != s] for a str [s]: only a str can be equal to a str. *)
Definition ne_str (v : value) (s : string) : bool :=
  match v with
  | VStr t => negb (t =? s)
  | _ => true
  end.

(** [s in v] for a str [s]. *)
Definition contains (s : string) (v : value) : result bool :=
  match v with
  | VDict d => Ok (existsb (fun kv => fst kv =? s) d)
  | VList l => Ok (existsb (fun x => negb (ne_str x s)) l)
  | VStr t => Ok (Str.contains s t)
  | _ => raise TypeError ("argument of type '" ++ type_name v ++ "' is not iterable")
  end.

(** A [for] loop whose body updates one local and may raise. *)
Fixpoint for_each {S X} (xs : list X) (st : S) (body : S -> X -> result S)
  : result S :=
  match xs with
  | [] => Ok st
  | x :: xs' =>
      match body st x with
      | Ok st' => for_each xs' st' body
      | Raise e => Raise e
      end
  end.

End Py.

(** ** Prompt Formatter *)

Open Scope result_scope.

Definition pull_request_data (pr_data files_data : value) : value :=
  VDict [("pr", pr_data); ("files", files_data)].

Definition format_header (title login state created updated body : value)
    (nfiles : Z) : string :=
  nl ++ "## Pull Request Information" ++ nl
  ++ "**Title:** " ++ Py.str title ++ nl
  ++ "**Author:** " ++ Py.str login ++ nl
  ++ "**State:** " ++ Py.str state ++ nl
  ++ "**Created:** " ++ Py.str created ++ nl
  ++ "**Updated:** " ++ Py.str updated ++ nl
  ++ nl
  ++ "**Description:**" ++ nl
  ++ Py.str (Py.or_ body (VStr "No description provided")) ++ nl
  ++ nl
  ++ "## Files Changed (" ++ str_of_Z nfiles ++ " files):" ++ nl.

(** The body of the loop over the files: three appended lines, then the
    fenced diff when the status is not "removed" and a patch is there. *)
Definition format_file (formatted : string) (file : value) : result string :=
  filename <- Py.getitem file "filename" ;;
  let formatted := formatted ++ (nl ++ "### " ++ Py.str filename) in
  status <- Py.getitem file "status" ;;
  let formatted := formatted ++ (nl ++ "- **Status:** " ++ Py.str status) in
  additions <- Py.getitem file "additions" ;;
  deletions <- Py.getitem file "deletions" ;;
  let formatted :=
    formatted ++ (nl ++ "- **Additions:** " ++ Py.str additions
                     ++ ", **Deletions:** " ++ Py.str deletions) in
  status' <- Py.getitem file "status" ;;
  if Py.ne_str status' "removed" then
    has_patch <- Py.contains "patch" file ;;
    if (has_patch : bool) then
      patch <- Py.getitem file "patch" ;;
      Ok (formatted ++ (nl ++ nl ++ "**Changes:**" ++ nl ++ "```diff" ++ nl
                            ++ Py.str patch ++ nl ++ "```" ++ nl))
    else Ok formatted
  else Ok formatted.

Definition format_pr_for_review (data : value) : result string :=
  pr <- Py.getitem data "pr" ;;
  files <- Py.getitem data "files" ;;
  title <- Py.getitem pr "title" ;;
  user <- Py.getitem pr "user" ;;
  login <- Py.getitem user "login" ;;
  state <- Py.getitem pr "state" ;;
  created <- Py.getitem pr "created_at" ;;
  updated <- Py.getitem pr "updated_at" ;;
  body <- Py.getitem pr "body" ;;
  nfiles <- Py.len files ;;
  let formatted := format_header title login state created updated body nfiles in
  items <- Py.iter files ;;
  Py.for_each items formatted format_file.

(** ** The outside world: the hosting API, the model API, the UI *)

Record response := Response {
  status_code : Z;
  json : result value          (* what [response.json()] does *)
}.

Inductive block :=
| TextBlock (text : string)
| OtherBlock (cls : string).    (* a content block without a [text] field *)

Record message := Message { content : list block }.

Inductive event :=
| HttpGet (url : string) (headers : list (string * string))
| MessagesCreate (model : string) (max_tokens : Z)
                 (messages : list (list (string * string)))
| StError (msg : string).

Definition trace := list event.

(** The answers of the two services, each as a function of what has
    happened so far and of the request.  A call either returns or raises
    an [Exception]; signals that are no [Exception] (an interrupt of the
    process) are outside the model. *)
Record Env := {
  requests_get : trace -> string -> list (string * string) -> result response;
  messages_create :
    trace -> string -> Z -> list (list (string * string)) -> result message
}.

(** Computations that talk to the world: a reader of [Env], a state of
    [trace], and exceptions. *)
Definition M (A : Type) : Type := Env -> trace -> result A * trace.

Module Eff.

Definition ret {A} (a : A) : M A := fun _ tr => (Ok a, tr).

Definition bind {A B} (m : M A) (f : A -> M B) : M B :=
  fun env tr =>
    match m env tr with
    | (Ok a, tr') => f a env tr'
    | (Raise e, tr') => (Raise e, tr')
    end.

Definition lift {A} (r : result A) : M A := fun _ tr => (r, tr).

(** [try: m / except Exception as e: h e] *)
Definition try_except {A} (m : M A) (h : exn -> M A) : M A :=
  fun env tr =>
    match m env tr with
    | (Ok a, tr') => (Ok a, tr')
    | (Raise e, tr') => h e env tr'
    end.

Definition get (url : string) (headers : list (string * string)) : M response :=
  fun env tr => (requests_get env tr url headers, (tr ++ [HttpGet url headers])%list).

Definition create (model : string) (max_tokens : Z)
    (messages : list (list (string * string))) : M message :=
  fun env tr =>
    (messages_create env tr model max_tokens messages,
     (tr ++ [MessagesCreate model max_tokens messages])%list).

Definition st_error (msg : string) : M unit :=
  fun _ tr => (Ok tt, (tr ++ [StError msg])%list).

End Eff.

Declare Scope eff_scope.
Delimit Scope eff_scope with eff.
Notation "x <- m ;; k" := (Eff.bind m (fun x => k))
  (at level 61, m at next level, right associativity) : eff_scope.
Notation "m ;;; k" := (Eff.bind m (fun _ => k))
  (at level 61, right associativity) : eff_scope.

(** ** The reviewer object *)

Record Anthropic := { api_key : string }.

Record GitHubPRReviewer := {
  github_token : option string;
  anthropic_api_key : option string;
  client : option Anthropic
}.

Definition nonempty (o : option string) : bool :=
  match o with
  | Some s => negb (s =? "")
  | None => false
  end.

(** [__init__], given [os.getenv]. *)
Definition init (getenv : string -> option string) : M GitHubPRReviewer :=
  (let token := getenv "GITHUB_TOKEN" in
   let key := getenv "ANTHROPIC_API_KEY" in
   (if nonempty token then Eff.ret tt
    else Eff.st_error "Please set GITHUB_TOKEN in your environment variables") ;;;
   (if nonempty key then Eff.ret tt
    else Eff.st_error "Please set ANTHROPIC_API_KEY in your environment variables") ;;;
   Eff.ret {| github_token := token;
              anthropic_api_key := key;
              client := match key with
                        | Some k => if nonempty key then Some {| api_key := k |}
                                    else None
                        | None => None
                        end |})%eff.

(** [f'{o}'] for the result of [os.getenv]. *)
Definition str_of_env (o : option string) : string :=
  match o with
  | Some s => s
  | None => "None"
  end.

(** ** PR Data Fetcher *)

Definition headers_of (self : GitHubPRReviewer) : list (string * string) :=
  [("Authorization", "token " ++ str_of_env (github_token self));
   ("Accept", "application/vnd.github.v3+json")].

Definition pr_url_of (owner repo pr_number : value) : string :=
  "https://api.github.com/repos/" ++ Py.str owner ++ "/" ++ Py.str repo
  ++ "/pulls/" ++ Py.str pr_number.

Definition files_url_of (owner repo pr_number : value) : string :=
  "https://api.github.com/repos/" ++ Py.str owner ++ "/" ++ Py.str repo
  ++ "/pulls/" ++ Py.str pr_number ++ "/files".

Definition fetch_pr_data (self : GitHubPRReviewer) (owner repo pr_number : value)
  : M (value * value) :=
  (let headers := headers_of self in
   let pr_url := pr_url_of owner repo pr_number in
   let files_url := files_url_of owner repo pr_number in
   Eff.try_except
     (pr_response <- Eff.get pr_url headers ;;
      files_response <- Eff.get files_url headers ;;
      if negb (status_code pr_response =? 200)%Z then
        Eff.ret (VNone,
                 VStr ("Error fetching PR: " ++ str_of_Z (status_code pr_response)))
      else if negb (status_code files_response =? 200)%Z then
        Eff.ret (VNone,
                 VStr ("Error fetching PR files: "
                       ++ str_of_Z (status_code files_response)))
      else
        pr_data <- Eff.lift (json pr_response) ;;
        files_data <- Eff.lift (json files_response) ;;
        Eff.ret (pull_request_data pr_data files_data, VNone))
     (fun e => Eff.ret (VNone, VStr ("Error: " ++ exn_str e))))%eff.

(** ** Review Generator *)

Definition review_prompt (pr_text : string) : string :=
  "Please review this GitHub Pull Request and provide:" ++ nl
  ++ nl
  ++ "1. **Summary**: A brief overview of what this PR does" ++ nl
  ++ "2. **Code Quality**: Assessment of code quality, patterns, and best practices" ++ nl
  ++ "3. **Potential Issues**: Any bugs, security concerns, or problems you identify" ++ nl
  ++ "4. **Suggestions**: Recommendations for improvements" ++ nl
  ++ "5. **Overall Assessment**: Your overall recommendation (Approve, Request Changes, Comment)" ++ nl
  ++ nl
  ++ "Here's the PR data:" ++ nl
  ++ nl
  ++ pr_text.

(** [message.content[0].text] *)
Definition first_text (m : message) : result string :=
  match content m with
  | [] => raise IndexError "list index out of range"
  | TextBlock t :: _ => Ok t
  | OtherBlock cls :: _ =>
      raise AttributeError ("'" ++ cls ++ "' object has no attribute 'text'")
  end.

Definition generate_review (self : GitHubPRReviewer) (pr_text : string) : M string :=
  (match client self with
   | None => Eff.ret "Claude API key not configured"
   | Some _ =>
       let prompt := review_prompt pr_text in
       Eff.try_except
         (msg <- Eff.create "claude-3-sonnet-20240229" 4000
                   [[("role", "user"); ("content", prompt)]] ;;
          Eff.lift (first_text msg))
         (fun e => Eff.ret ("Error generating review: " ++ exn_str e))
   end)%eff.

(** ** The page: [main] *)

(** What the page receives from Streamlit is an argument of [main] (the
    text of the input box, whether the button was pressed); what it hands
    to Streamlit is logged. *)
Inductive widget :=
| SetPageConfig (page_title page_icon layout : string)
| Title (body : string)
| Markdown (body : value)
| TextInput (label placeholder help : string)
| Button (label type : string)
| Spinner (text : string)
| Success (body : string)
| Columns (spec : list Z)
| Within (column : string)      (* [with col1:], [with col2:] entered *)
| Subheader (body : string)
| Expander (label : string)
| Code (body : value) (language : string).

(** One log for the whole run: the calls of the reviewer (requests,
    completions, [st.error]) and the widgets, in the order they happen. *)
Inductive entry :=
| Call (e : event)
| Show (w : widget).

Definition UI (A : Type) : Type := Env -> list entry -> result A * list entry.

Module Ui.

Definition calls_of (log : list entry) : trace :=
  flat_map (fun x => match x with Call e => [e] | Show _ => [] end) log.

Definition ret {A} (a : A) : UI A := fun _ log => (Ok a, log).

Definition bind {A B} (m : UI A) (f : A -> UI B) : UI B :=
  fun env log =>
    match m env log with
    | (Ok a, log') => f a env log'
    | (Raise e, log') => (Raise e, log')
    end.

Definition pure {A} (r : result A) : UI A := fun _ log => (r, log).

Definition show (w : widget) : UI unit :=
  fun _ log => (Ok tt, (log ++ [Show w])%list).

(** A method of the reviewer, run on the calls made so far; the calls it
    adds go to the end of the log. *)
Definition lift {A} (m : M A) : UI A :=
  fun env log =>
    let tr := calls_of log in
    let (r, tr') := m env tr in
    (r, (log ++ map Call (skipn (List.length tr) tr'))%list).

Fixpoint for_each {X} (xs : list X) (body : X -> UI unit) : UI unit :=
  match xs with
  | [] => ret tt
  | x :: xs' => bind (body x) (fun _ => for_each xs' body)
  end.

End Ui.

Declare Scope ui_scope.
Delimit Scope ui_scope with ui.
Notation "x <- m ;; k" := (Ui.bind m (fun x => k))
  (at level 61, m at next level, right associativity) : ui_scope.
Notation "m ;;; k" := (Ui.bind m (fun _ => k))
  (at level 61, right associativity) : ui_scope.

Module PySum.

Definition int_of (v : value) : option Z :=
  match v with
  | VInt z => Some z
  | VBool b => Some (if b then 1 else 0)%Z
  | _ => None
  end.

(** [acc + x] where [acc] is the running total of a [sum], an int or a
    float.  The model of floats does not compute, so the float that an
    addition yields is asked of [float_add]. *)
Definition add (float_add : value -> value -> value) (acc x : value)
  : result value :=
  match int_of acc, int_of x with
  | Some a, Some b => Ok (VInt (a + b))
  | _, _ =>
      match acc, x with
      | VFloat _ _, (VInt _ | VBool _ | VFloat _ _) => Ok (float_add acc x)
      | (VInt _ | VBool _), VFloat _ _ => Ok (float_add acc x)
      | _, _ =>
          raise TypeError
            ("unsupported operand type(s) for +: '" ++ Py.type_name acc
               ++ "' and '" ++ Py.type_name x ++ "'")
      end
  end.

(** [sum(f[key] for f in items)] *)
Definition sum_of (float_add : value -> value -> value) (key : string)
    (items : list value) : result value :=
  Py.for_each items (VInt 0)
    (fun acc f => (x <- Py.getitem f key ;; add float_add acc x)%result).

End PySum.

(** The block [with col1:]. *)
Definition show_details (float_add : value -> value -> value) (data : value)
  : UI unit :=
  (Ui.show (Within "col1") ;;;
   Ui.show (Subheader "📋 PR Details") ;;;
   pr <- Ui.pure (Py.getitem data "pr") ;;
   title <- Ui.pure (Py.getitem pr "title") ;;
   Ui.show (Markdown (VStr ("**Title:** " ++ Py.str title))) ;;;
   user <- Ui.pure (Py.getitem pr "user") ;;
   login <- Ui.pure (Py.getitem user "login") ;;
   Ui.show (Markdown (VStr ("**Author:** " ++ Py.str login))) ;;;
   state <- Ui.pure (Py.getitem pr "state") ;;
   Ui.show (Markdown (VStr ("**State:** " ++ Py.str state))) ;;;
   files <- Ui.pure (Py.getitem data "files") ;;
   nfiles <- Ui.pure (Py.len files) ;;
   Ui.show (Markdown (VStr ("**Files Changed:** " ++ str_of_Z nfiles))) ;;;
   files_a <- Ui.pure (Py.getitem data "files") ;;
   items_a <- Ui.pure (Py.iter files_a) ;;
   total_additions <- Ui.pure (PySum.sum_of float_add "additions" items_a) ;;
   files_d <- Ui.pure (Py.getitem data "files") ;;
   items_d <- Ui.pure (Py.iter files_d) ;;
   total_deletions <- Ui.pure (PySum.sum_of float_add "deletions" items_d) ;;
   Ui.show (Markdown (VStr ("**Changes:** +" ++ Py.str total_additions
                              ++ " -" ++ Py.str total_deletions))) ;;;
   body <- Ui.pure (Py.getitem pr "body") ;;
   if Py.truthy body then
     Ui.show (Markdown (VStr "**Description:**")) ;;;
     body' <- Ui.pure (Py.getitem pr "body") ;;
     Ui.show (Markdown body')
   else Ui.ret tt)%ui.

(** The block [with col2:]. *)
Definition show_review (reviewer : GitHubPRReviewer) (data : value) : UI unit :=
  (Ui.show (Within "col2") ;;;
   Ui.show (Subheader "🤖 AI Review") ;;;
   Ui.show (Spinner "Generating AI review with Claude...") ;;;
   pr_text <- Ui.pure (format_pr_for_review data) ;;
   review <- Ui.lift (generate_review reviewer pr_text) ;;
   Ui.show (Markdown (VStr review)))%ui.

(** One turn of the loop of the expander. *)
Definition show_file (file : value) : UI unit :=
  (filename <- Ui.pure (Py.getitem file "filename") ;;
   Ui.show (Markdown (VStr ("### " ++ Py.str filename))) ;;;
   status <- Ui.pure (Py.getitem file "status") ;;
   additions <- Ui.pure (Py.getitem file "additions") ;;
   deletions <- Ui.pure (Py.getitem file "deletions") ;;
   Ui.show (Markdown (VStr ("**Status:** " ++ Py.str status ++ " | **+"
                              ++ Py.str additions ++ " -" ++ Py.str deletions
                              ++ "**"))) ;;;
   status' <- Ui.pure (Py.getitem file "status") ;;
   if Py.ne_str status' "removed" then
     has_patch <- Ui.pure (Py.contains "patch" file) ;;
     if (has_patch : bool) then
       patch <- Ui.pure (Py.getitem file "patch") ;;
       Ui.show (Code patch "diff")
     else Ui.ret tt
   else Ui.ret tt)%ui.

(** The block [with st.expander(...)]. *)
Definition show_files (data : value) : UI unit :=
  (Ui.show (Expander "📁 View Changed Files") ;;;
   files <- Ui.pure (Py.getitem data "files") ;;
   items <- Ui.pure (Py.iter files) ;;
   Ui.for_each items show_file)%ui.

(** What follows a press of the button. *)
Definition review_pr (float_add : value -> value -> value)
    (reviewer : GitHubPRReviewer) (github_url : string) : UI unit :=
  (if github_url =? "" then
     Ui.lift (Eff.st_error "Please enter a GitHub PR URL")
   else
     let '(owner, repo, pr_number) := parse_github_url github_url in
     if negb (Py.truthy owner) || negb (Py.truthy repo)
        || negb (Py.truthy pr_number) then
       Ui.lift (Eff.st_error
         "Invalid GitHub PR URL format. Please use: https://github.com/owner/repo/pull/123")
     else
       Ui.show (Spinner "Fetching PR data from GitHub...") ;;;
       fetched <- Ui.lift (fetch_pr_data reviewer owner repo pr_number) ;;
       let '(data, error) := fetched in
       if Py.truthy error then Ui.lift (Eff.st_error (Py.str error))
       else
         Ui.show (Success "✅ PR data fetched successfully!") ;;;
         Ui.show (Columns [1; 1]%Z) ;;;
         show_details float_add data ;;;
         show_review reviewer data ;;;
         show_files data)%ui.

Definition main (getenv : string -> option string)
    (float_add : value -> value -> value)
    (github_url : string) (clicked : bool) : UI unit :=
  (Ui.show (SetPageConfig "MR Review Tool" "🔍" "wide") ;;;
   Ui.show (Title "🔍 GitHub Pull Request Review Tool") ;;;
   Ui.show (Markdown (VStr
     "Enter a GitHub Pull Request URL to get an AI-powered code review using Claude")) ;;;
   reviewer <- Ui.lift (init getenv) ;;
   Ui.show (TextInput "GitHub PR URL" "https://github.com/owner/repo/pull/123"
              "Enter the full URL of the GitHub Pull Request you want to review") ;;;
   Ui.show (Button "Review PR" "primary") ;;;
   if clicked then review_pr float_add reviewer github_url
   else Ui.ret tt)%ui.

(** * The vocabulary of the properties *)

(** ** Matching *)

Definition all_in (cs : Re.cset) (s : string) : bool :=
  Str.forallb (fun c => Re.mem c cs) s.

Definition starts_in (cs : Re.cset) (s : string) : bool :=
  Str.head_ok (fun c => Re.mem c cs) s.

Definition is_segment (s : string) : bool :=
  negb (s =? "") && negb (Str.has_char slash s).

Definition is_digits (s : string) : bool :=
  negb (s =? "") && Str.forallb is_digit s.

Definition pr_url_text (owner repo number : string) : string :=
  "https://github.com/" ++ owner ++ "/" ++ repo ++ "/pull/" ++ number.

(** ** Well-formed inputs of the formatter *)

Definition has_key (k : string) (d : list (string * value)) : bool :=
  match Py.lookup k d with
  | Some _ => true
  | None => false
  end.

(** A file record carries the four fields the loop reads. *)
Definition file_ok (file : value) : bool :=
  match file with
  | VDict d =>
      has_key "filename" d && has_key "status" d
      && has_key "additions" d && has_key "deletions" d
  | _ => false
  end.

(** The metadata carries the fields of the header. *)
Definition pr_ok (pr : value) : bool :=
  match pr with
  | VDict d =>
      has_key "title" d
      && match Py.lookup "user" d with
         | Some (VDict u) => has_key "login" u
         | _ => false
         end
      && has_key "state" d && has_key "created_at" d
      && has_key "updated_at" d && has_key "body" d
  | _ => false
  end.

(** The files can be counted and looped over, and every item visited is a
    file record: a list of records, or a collection with nothing in it. *)
Definition files_ok (files : value) : bool :=
  match files with
  | VList l => forallb file_ok l
  | VStr s => s =? ""
  | VDict d => match d with [] => true | _ => false end
  | _ => false
  end.

Definition is_fault (e : exn) : Prop :=
  exn_cls e = KeyError \/ exn_cls e = TypeError.

(** The field [k] of a record that has it. *)
Definition field (k : string) (v : value) : value :=
  match Py.getitem v k with
  | Ok x => x
  | Raise _ => VNone
  end.

Definition items_of (files : value) : list value :=
  match Py.iter files with
  | Ok l => l
  | Raise _ => []
  end.

Definition count_of (files : value) : Z :=
  match Py.len files with
  | Ok n => n
  | Raise _ => 0%Z
  end.

(** ** The pieces of the document *)

(** The text before the first file. *)
Definition header_text (pr files : value) : string :=
  format_header (field "title" pr) (field "login" (field "user" pr))
    (field "state" pr) (field "created_at" pr) (field "updated_at" pr)
    (field "body" pr) (count_of files).

Definition summary_lines (filename status additions deletions : value) : string :=
  (nl ++ "### " ++ Py.str filename)
  ++ (nl ++ "- **Status:** " ++ Py.str status)
  ++ (nl ++ "- **Additions:** " ++ Py.str additions
         ++ ", **Deletions:** " ++ Py.str deletions).

Definition diff_block (patch : value) : string :=
  nl ++ nl ++ "**Changes:**" ++ nl ++ "```diff" ++ nl
     ++ Py.str patch ++ nl ++ "```" ++ nl.

(** What one file adds to the document. *)
Definition file_segment (file : value) : option string :=
  match file with
  | VDict d =>
      match Py.lookup "filename" d, Py.lookup "status" d,
            Py.lookup "additions" d, Py.lookup "deletions" d with
      | Some n, Some s, Some a, Some dl =>
          Some (summary_lines n s a dl
                ++ (if Py.ne_str s "removed" then
                      match Py.lookup "patch" d with
                      | Some p => diff_block p
                      | None => ""
                      end
                    else ""))
      | _, _, _, _ => None
      end
  | _ => None
  end.

Fixpoint segments (items : list value) : option (list string) :=
  match items with
  | [] => Some []
  | f :: items' =>
      match file_segment f, segments items' with
      | Some seg, Some segs => Some (seg :: segs)
      | _, _ => None
      end
  end.

(** The fenced diff of the patch of a record, when it has a patch. *)
Definition patch_block (file : value) : string :=
  match Py.getitem file "patch" with
  | Ok patch => diff_block patch
  | Raise _ => ""
  end.

(** The text one file record stands for in the document: its three
    summary lines, followed by its fenced diff unless the file is
    removed. *)
Definition segment_text (file : value) : string :=
  summary_lines (field "filename" file) (field "status" file)
    (field "additions" file) (field "deletions" file)
  ++ if Py.ne_str (field "status" file) "removed" then patch_block file else "".

(** The line of the header that counts the files. *)
Definition count_line (n : nat) : string :=
  "## Files Changed (" ++ str_of_Z (Z.of_nat n) ++ " files):" ++ nl.

Definition backtick : char := 96%N.

(** ** The answers of the hosting API *)

(** The answers the two GET calls of one invocation receive. *)
Definition metadata_get (self : GitHubPRReviewer) (owner repo pr_number : value)
    (env : Env) (tr : trace) : result response :=
  requests_get env tr (pr_url_of owner repo pr_number) (headers_of self).

Definition files_get (self : GitHubPRReviewer) (owner repo pr_number : value)
    (env : Env) (tr : trace) : result response :=
  requests_get env
    (tr ++ [HttpGet (pr_url_of owner repo pr_number) (headers_of self)])%list
    (files_url_of owner repo pr_number) (headers_of self).

(** The requests one invocation of the fetcher issues. *)
Definition gets_of (self : GitHubPRReviewer) (owner repo pr_number : value)
    (env : Env) (tr : trace) : trace :=
  HttpGet (pr_url_of owner repo pr_number) (headers_of self)
  :: match metadata_get self owner repo pr_number env tr with
     | Ok _ => [HttpGet (pr_url_of owner repo pr_number ++ "/files")
                  (headers_of self)]
     | Raise _ => []
     end.

(** The completion call one invocation of the generator issues. *)
Definition completion_of (pr_text : string) : event :=
  MessagesCreate "claude-3-sonnet-20240229" 4000
    [[("role", "user"); ("content", review_prompt pr_text)]].

(** The text the generator makes of the answer to that call. *)
Definition review_text (answer : result message) : string :=
  match answer with
  | Ok m =>
      match content m with
      | TextBlock t :: _ => t
      | [] => "Error generating review: list index out of range"
      | OtherBlock cls :: _ =>
          "Error generating review: '" ++ cls ++ "' object has no attribute 'text'"
      end
  | Raise e => "Error generating review: " ++ exn_str e
  end.

(** The error boxes of [__init__], one per credential that is unset or
    empty. *)
Definition missing_credentials (getenv : string -> option string) : trace :=
  ((if nonempty (getenv "GITHUB_TOKEN") then []
    else [StError "Please set GITHUB_TOKEN in your environment variables"])
   ++ (if nonempty (getenv "ANTHROPIC_API_KEY") then []
       else [StError "Please set ANTHROPIC_API_KEY in your environment variables"]))%list.

(** ** The log of a run of the page *)

(** The calls to the two services among the entries of a log. *)
Definition service_calls (log : list entry) : trace :=
  flat_map (fun x => match x with
                     | Call (HttpGet url headers) => [HttpGet url headers]
                     | Call (MessagesCreate model max_tokens messages) =>
                         [MessagesCreate model max_tokens messages]
                     | _ => []
                     end) log.

(** The reviewer that [__init__] builds. *)
Definition reviewer_of (getenv : string -> option string) : GitHubPRReviewer :=
  {| github_token := getenv "GITHUB_TOKEN";
     anthropic_api_key := getenv "ANTHROPIC_API_KEY";
     client := match getenv "ANTHROPIC_API_KEY" with
               | Some k => if nonempty (getenv "ANTHROPIC_API_KEY")
                           then Some {| api_key := k |} else None
               | None => None
               end |}.

(** What every run logs before it looks at the button. *)
Definition page_head (getenv : string -> option string) : list entry :=
  ([Show (SetPageConfig "MR Review Tool" "🔍" "wide");
    Show (Title "🔍 GitHub Pull Request Review Tool");
    Show (Markdown (VStr
      "Enter a GitHub Pull Request URL to get an AI-powered code review using Claude"))]
   ++ map Call (missing_credentials getenv)
   ++ [Show (TextInput "GitHub PR URL" "https://github.com/owner/repo/pull/123"
               "Enter the full URL of the GitHub Pull Request you want to review");
       Show (Button "Review PR" "primary")])%list.

Definition empty_url_error : string := "Please enter a GitHub PR URL".

Definition invalid_url_error : string :=
  "Invalid GitHub PR URL format. Please use: https://github.com/owner/repo/pull/123".

(** [m] only adds entries to the log, and the service calls among them
    satisfy [P]. *)
Definition emits {A} (m : UI A) (P : trace -> Prop) : Prop :=
  forall env log,
    exists new,
      snd (m env log) = (log ++ new)%list /\ P (service_calls new).

(** [m] calls no service. *)
Definition quiet {A} (m : UI A) : Prop := emits m (fun t => t = []).

(** The calls of the review column: none, or the one completion for the
    document the formatter made of the data. *)
Definition review_calls (self : GitHubPRReviewer) (data : value) (t : trace)
  : Prop :=
  t = []
  \/ exists doc c,
       format_pr_for_review data = Ok doc /\ client self = Some c
       /\ t = [completion_of doc].





(** ** Sample inputs and stub services *)

Definition sample_url : string :=
  "https://github.com/octocat/Hello-World/pull/42".

(** A pull request with an empty description and two files, the second
    one removed and still carrying a patch. *)
Definition sample_pr : value :=
  VDict [("title", VStr "Fix bug");
         ("user", VDict [("login", VStr "alice")]);
         ("state", VStr "open");
         ("created_at", VStr "2024-05-01T10:00:00Z");
         ("updated_at", VStr "2024-05-02T08:30:00Z");
         ("body", VNone)].

Definition sample_files : value :=
  VList [VDict [("filename", VStr "src/new.py"); ("status", VStr "added");
                ("additions", VInt 3); ("deletions", VInt 0);
                ("patch", VStr "@@ -0,0 +1,3 @@")];
         VDict [("filename", VStr "src/old.py"); ("status", VStr "removed");
                ("additions", VInt 0); ("deletions", VInt 7);
                ("patch", VStr "@@ -1,7 +0,0 @@")]].

(** The same pull request with a description. *)
Definition described_pr : value :=
  VDict [("title", VStr "Fix bug");
         ("user", VDict [("login", VStr "alice")]);
         ("state", VStr "open");
         ("created_at", VStr "2024-05-01T10:00:00Z");
         ("updated_at", VStr "2024-05-02T08:30:00Z");
         ("body", VStr "Fixes #12")].

(** The two file records of the sample. *)
Definition sample_records : list value :=
  [VDict [("filename", VStr "src/new.py"); ("status", VStr "added");
          ("additions", VInt 3); ("deletions", VInt 0);
          ("patch", VStr "@@ -0,0 +1,3 @@")];
   VDict [("filename", VStr "src/old.py"); ("status", VStr "removed");
          ("additions", VInt 0); ("deletions", VInt 7);
          ("patch", VStr "@@ -1,7 +0,0 @@")]].

(** Services that answer: the hosting API with the sample, the model API
    with a review of one text block. *)
Definition sample_services : Env :=
  {| requests_get := fun _ url _ =>
       Ok (Response 200
             (Ok (if Str.contains "/files" url then VList sample_records
                  else described_pr)));
     messages_create := fun _ _ _ _ => Ok (Message [TextBlock "Looks good."]) |}.

(** A hosting API whose file record has its additions as text. *)
Definition text_count_services : Env :=
  {| requests_get := fun _ url _ =>
       Ok (Response 200
             (Ok (if Str.contains "/files" url
                  then VList [VDict [("filename", VStr "a.py");
                                     ("status", VStr "added");
                                     ("additions", VStr "3");
                                     ("deletions", VInt 0)]]
                  else described_pr)));
     messages_create := fun _ _ _ _ => Ok (Message [TextBlock "Looks good."]) |}.

(** An environment with both credentials. *)
Definition both_set (name : string) : option string := Some "secret".

(** A float addition to run the page with; the samples hold no float. *)
Definition no_floats (a b : value) : value := a.

(** A reviewer with a hosting token and no model key. *)
Definition reviewer_without_key : GitHubPRReviewer :=
  {| github_token := Some "ghp_token"; anthropic_api_key := None; client := None |}.

(** A reviewer with both credentials. *)
Definition reviewer_with_key : GitHubPRReviewer :=
  {| github_token := Some "ghp_token"; anthropic_api_key := Some "sk-key";
     client := Some {| api_key := "sk-key" |} |}.

Definition no_model_call : trace -> string -> Z -> list (list (string * string))
                           -> result message :=
  fun _ _ _ _ => Raise (Exn OtherException "Connection error.").

(** A hosting API that answers every GET with the given status and an
    empty JSON object. *)
Definition status_stub (status : Z) : Env :=
  {| requests_get := fun _ _ _ => Ok (Response status (Ok (VDict [])));
     messages_create := no_model_call |}.

(** A hosting API that answers the first GET with 404 and drops the
    connection on every later one. *)
Definition not_found_then_down : Env :=
  {| requests_get := fun tr _ _ =>
       match tr with
       | [] => Ok (Response 404 (Ok (VDict [("message", VStr "Not Found")])))
       | _ => Raise (Exn OtherException "Connection aborted.")
       end;
     messages_create := no_model_call |}.

(** * Properties *)

(** ** Facts about strings *)

Module TextFacts.

Lemma eqb_refl (s : string) : (s =? s) = true.
Proof.
  induction s as [|c s IH]; [reflexivity|].
  cbn [Text.eqb]. now rewrite N.eqb_refl, IH.
Qed.

Lemma eqb_eq (s t : string) : (s =? t) = true <-> s = t.
Proof.
  split; [|intros ->; apply eqb_refl].
  revert t. induction s as [|c s IH]; intros [|d t]; cbn [Text.eqb];
    try discriminate; [reflexivity|].
  intros H. apply andb_true_iff in H as [Hc Hs].
  apply N.eqb_eq in Hc. now rewrite Hc, (IH t Hs).
Qed.

Lemma eqb_spec (s t : string) : reflect (s = t) (s =? t).
Proof.
  destruct (s =? t) eqn:E; constructor.
  - now apply eqb_eq.
  - intros H. apply eqb_eq in H. congruence.
Qed.

(** Literals are read as code points, and the digits of [\d] are the
    decimal digits of every script, not the other numerals. *)
Example literal_code_points :
  Text.codes "A/é☃🔍" = [65; 47; 233; 9731; 128269]%N.
Proof. reflexivity. Qed.

Example digit_class :
  Str.forallb is_digit "0123456789٠١٢٣٤٥٦٧٨٩１２３" = true
  /\ Str.forallb (fun c => negb (is_digit c)) "a/ ²½Ⅷ一" = true.
Proof. split; reflexivity. Qed.

End TextFacts.

Module StrFacts.

Lemma app_assoc (a b c : string) : (a ++ b) ++ c = a ++ (b ++ c).
Proof. induction a as [|x a IH]; simpl; [reflexivity | now rewrite IH]. Qed.

Lemma app_nil_r (a : string) : a ++ "" = a.
Proof. induction a as [|x a IH]; simpl; [reflexivity | now rewrite IH]. Qed.

Lemma length_app (a b : string) :
  Text.length (a ++ b) = (Text.length a + Text.length b)%nat.
Proof. induction a as [|x a IH]; simpl; [reflexivity | now rewrite IH]. Qed.

Lemma take_app (a b : string) :
  Str.take (Text.length (a ++ b) - Text.length b) (a ++ b) = a.
Proof.
  rewrite length_app.
  replace (Text.length a + Text.length b - Text.length b)%nat
    with (Text.length a) by lia.
  induction a as [|x a IH]; simpl.
  - now destruct b.
  - now rewrite IH.
Qed.

Lemma strip_prefix_app (p s : string) : Str.strip_prefix p (p ++ s) = Some s.
Proof.
  induction p as [|x p IH]; simpl; [reflexivity|].
  now rewrite N.eqb_refl.
Qed.

Lemma strip_prefix_inv (p s rest : string) :
  Str.strip_prefix p s = Some rest -> s = p ++ rest.
Proof.
  revert s; induction p as [|x p IH]; intros s H; simpl in *.
  - now inversion H.
  - destruct s as [|y s]; [discriminate|].
    destruct (N.eqb_spec x y) as [->|]; [|discriminate].
    now rewrite (IH _ H).
Qed.

Lemma contains_unfold (needle hay : string) :
  Str.contains needle hay =
  match Str.strip_prefix needle hay with
  | Some _ => true
  | None => match hay with
            | EmptyString => false
            | String _ hay' => Str.contains needle hay'
            end
  end.
Proof. destruct hay; reflexivity. Qed.

Lemma contains_app (needle pre post : string) :
  Str.contains needle (pre ++ needle ++ post) = true.
Proof.
  induction pre as [|x pre IH]; rewrite contains_unfold.
  - cbn [append]. now rewrite strip_prefix_app.
  - cbn [append].
    destruct (Str.strip_prefix needle (String x (pre ++ needle ++ post)));
      [reflexivity | exact IH].
Qed.

Lemma contains_inv (needle hay : string) :
  Str.contains needle hay = true ->
  exists pre post, hay = pre ++ needle ++ post.
Proof.
  induction hay as [|x hay IH]; rewrite contains_unfold.
  - destruct (Str.strip_prefix needle "") eqn:E; [|discriminate].
    intros _. exists "", s. cbn [append]. now apply strip_prefix_inv.
  - destruct (Str.strip_prefix needle (String x hay)) eqn:E.
    + intros _. exists "", s. cbn [append]. now apply strip_prefix_inv.
    + intros H. destruct (IH H) as (pre & post & ->).
      now exists (String x pre), post.
Qed.

Lemma take_drop_while (p : char -> bool) (s : string) :
  Str.take_while p s ++ Str.drop_while p s = s.
Proof.
  induction s as [|x s IH]; simpl; [reflexivity|].
  destruct (p x); simpl; [now rewrite IH | reflexivity].
Qed.

Lemma forallb_take_while (p : char -> bool) (s : string) :
  Str.forallb p (Str.take_while p s) = true.
Proof.
  induction s as [|x s IH]; simpl; [reflexivity|].
  destruct (p x) eqn:E; simpl; [now rewrite E | reflexivity].
Qed.

Lemma head_drop_while (p : char -> bool) (s : string) :
  Str.head_ok p (Str.drop_while p s) = false.
Proof.
  induction s as [|x s IH]; simpl; [reflexivity|].
  destruct (p x) eqn:E; simpl; [exact IH | exact E].
Qed.

Lemma forallb_app (p : char -> bool) (a b : string) :
  Str.forallb p (a ++ b) = Str.forallb p a && Str.forallb p b.
Proof.
  induction a as [|x a IH]; simpl; [reflexivity|].
  now rewrite IH, andb_assoc.
Qed.

Lemma has_char_app (c : char) (a b : string) :
  Str.has_char c (a ++ b) = Str.has_char c a || Str.has_char c b.
Proof.
  induction a as [|x a IH]; simpl; [reflexivity|].
  now rewrite IH, orb_assoc.
Qed.

End StrFacts.

(** ** Facts about the matcher *)

Module ReFacts.
Import Re.

Lemma run_cat r1 r2 s gs k :
  run (Cat r1 r2) s gs k = run r1 s gs (fun rest gs' => run r2 rest gs' k).
Proof. reflexivity. Qed.

Lemma run_lit p : forall s gs k,
  run (lit p) s gs k =
  match Str.strip_prefix p s with
  | Some rest => k rest gs
  | None => None
  end.
Proof.
  induction p as [|a p IH]; intros s gs k; [reflexivity|].
  destruct s as [|b s]; [reflexivity|].
  cbn [lit run mem Str.strip_prefix].
  destruct (N.eqb a b); [apply IH | reflexivity].
Qed.

Section Star.
Context {A : Type} (cs : cset) (k : string -> option A).

Lemma star_sound s res :
  star cs s k = Some res ->
  exists w t, s = w ++ t /\ all_in cs w = true /\ k t = Some res.
Proof.
  induction s as [|c s IH]; cbn [star]; intros H.
  - now exists "", "".
  - destruct (mem c cs) eqn:Ec.
    + destruct (star cs s k) as [r|] eqn:Es.
      * destruct (IH H) as (w & t & -> & Hw & Hk).
        exists (String c w), t. repeat split; try assumption.
        unfold all_in in *. cbn. now rewrite Ec.
      * now exists "", (String c s).
    + now exists "", (String c s).
Qed.

Lemma star_greedy w t res :
  all_in cs w = true -> starts_in cs t = false -> k t = Some res ->
  star cs (w ++ t) k = Some res.
Proof.
  intros Hw Ht Hk. induction w as [|c w IH]; cbn [append].
  - destruct t as [|c t]; cbn [star]; [exact Hk|].
    cbn in Ht. now rewrite Ht.
  - unfold all_in in *. cbn in Hw. apply andb_true_iff in Hw as [Hc Hw].
    cbn [star]. now rewrite Hc, (IH Hw).
Qed.

Lemma plus_sound s res :
  plus cs s k = Some res ->
  exists w t, s = w ++ t /\ w <> "" /\ all_in cs w = true /\ k t = Some res.
Proof.
  destruct s as [|c s]; cbn [plus]; [discriminate|].
  destruct (mem c cs) eqn:Ec; [|discriminate].
  intros H. destruct (star_sound _ _ H) as (w & t & -> & Hw & Hk).
  exists (String c w), t. repeat split; try assumption; [discriminate|].
  unfold all_in in *. cbn. now rewrite Ec.
Qed.

Lemma plus_greedy w t res :
  w <> "" -> all_in cs w = true -> starts_in cs t = false -> k t = Some res ->
  plus cs (w ++ t) k = Some res.
Proof.
  destruct w as [|c w]; [congruence|]. intros _ Hw Ht Hk.
  unfold all_in in Hw. cbn in Hw. apply andb_true_iff in Hw as [Hc Hw].
  cbn [append plus]. rewrite Hc. now apply star_greedy.
Qed.
End Star.

Lemma group_plus_sound cs s gs k res :
  run (Group (Plus cs)) s gs k = Some res ->
  exists w t, s = w ++ t /\ w <> "" /\ all_in cs w = true
              /\ k t (gs ++ [w])%list = Some res.
Proof.
  cbn [run]. intros H. apply plus_sound in H as (w & t & -> & Hne & Hw & Hk).
  rewrite StrFacts.take_app in Hk. now exists w, t.
Qed.

Lemma group_plus_greedy cs w t gs k res :
  w <> "" -> all_in cs w = true -> starts_in cs t = false ->
  k t (gs ++ [w])%list = Some res ->
  run (Group (Plus cs)) (w ++ t) gs k = Some res.
Proof.
  intros Hne Hw Ht Hk. cbn [run]. apply plus_greedy; try assumption.
  now rewrite StrFacts.take_app.
Qed.

Lemma all_in_not c s : all_in (Not c) s = negb (Str.has_char c s).
Proof.
  unfold all_in. induction s as [|x s IH]; [reflexivity|].
  cbn [Str.forallb Str.has_char mem] in *.
  now rewrite IH, negb_orb, (N.eqb_sym c x).
Qed.

End ReFacts.

(** ** URL Parser: what is accepted and what is returned *)

Lemma nonempty_neq (s : string) : negb (s =? "") = true -> s <> "".
Proof. destruct s; [discriminate | intros _; discriminate]. Qed.

Lemma neq_nonempty (s : string) : s <> "" -> negb (s =? "") = true.
Proof. destruct s; [congruence | reflexivity]. Qed.

Lemma re_match_complete owner repo number tail :
  is_segment owner = true -> is_segment repo = true -> is_digits number = true ->
  Re.re_match pattern (pr_url_text owner repo number ++ tail)
  = Some [owner; repo; number ++ Str.take_while is_digit tail].
Proof.
  unfold is_segment, is_digits.
  intros [Ho1 Ho2]%andb_true_iff [Hr1 Hr2]%andb_true_iff [Hn1 Hn2]%andb_true_iff.
  apply nonempty_neq in Ho1, Hr1, Hn1.
  unfold Re.re_match, pattern, pr_url_text.
  rewrite <- (StrFacts.take_drop_while is_digit tail) at 1.
  rewrite !StrFacts.app_assoc.
  rewrite <- (StrFacts.app_assoc number).
  set (num := number ++ Str.take_while is_digit tail).
  set (rest := Str.drop_while is_digit tail).
  rewrite ReFacts.run_cat, ReFacts.run_lit, StrFacts.strip_prefix_app.
  rewrite ReFacts.run_cat.
  apply ReFacts.group_plus_greedy;
    [assumption | now rewrite ReFacts.all_in_not | reflexivity |].
  rewrite ReFacts.run_cat, ReFacts.run_lit, StrFacts.strip_prefix_app.
  rewrite ReFacts.run_cat.
  apply ReFacts.group_plus_greedy;
    [assumption | now rewrite ReFacts.all_in_not | reflexivity |].
  rewrite ReFacts.run_cat, ReFacts.run_lit, StrFacts.strip_prefix_app.
  apply ReFacts.group_plus_greedy.
  - subst num. destruct number; [congruence | discriminate].
  - subst num. unfold all_in.
    rewrite StrFacts.forallb_app.
    change (fun c => Re.mem c Re.Dig) with is_digit.
    now rewrite Hn2, StrFacts.forallb_take_while.
  - apply StrFacts.head_drop_while.
  - reflexivity.
Qed.

Lemma re_match_sound url gs :
  Re.re_match pattern url = Some gs ->
  exists owner repo number tail,
    url = pr_url_text owner repo number ++ tail
    /\ is_segment owner = true /\ is_segment repo = true
    /\ is_digits number = true
    /\ gs = [owner; repo; number].
Proof.
  unfold Re.re_match, pattern. intros H.
  rewrite ReFacts.run_cat, ReFacts.run_lit in H.
  destruct (Str.strip_prefix _ url) as [s1|] eqn:E1; [|discriminate].
  apply StrFacts.strip_prefix_inv in E1. subst url.
  rewrite ReFacts.run_cat in H.
  apply ReFacts.group_plus_sound in H as (o & s2 & -> & Ho1 & Ho2 & H).
  rewrite ReFacts.run_cat, ReFacts.run_lit in H.
  destruct (Str.strip_prefix _ s2) as [s3|] eqn:E2; [|discriminate].
  apply StrFacts.strip_prefix_inv in E2. subst s2.
  rewrite ReFacts.run_cat in H.
  apply ReFacts.group_plus_sound in H as (r & s4 & -> & Hr1 & Hr2 & H).
  rewrite ReFacts.run_cat, ReFacts.run_lit in H.
  destruct (Str.strip_prefix _ s4) as [s5|] eqn:E3; [|discriminate].
  apply StrFacts.strip_prefix_inv in E3. subst s4.
  apply ReFacts.group_plus_sound in H as (n & tail & -> & Hn1 & Hn2 & H).
  exists o, r, n, tail. unfold pr_url_text, is_segment, is_digits.
  rewrite ReFacts.all_in_not in Ho2, Hr2.
  rewrite Ho2, Hr2, !neq_nonempty by assumption.
  change (all_in Re.Dig n) with (Str.forallb is_digit n) in Hn2.
  rewrite Hn2. repeat split.
  - now rewrite !StrFacts.app_assoc.
  - now inversion H.
Qed.

(** ** Prompt Formatter: the inputs it accepts and the text it builds *)

Module FormatFacts.

Lemma existsb_key k d :
  existsb (fun kv : string * value => fst kv =? k) d = has_key k d.
Proof.
  unfold has_key. induction d as [|[k' v] d IH]; [reflexivity|].
  cbn [existsb Py.lookup fst]. destruct (k' =? k); [reflexivity | exact IH].
Qed.

Lemma getitem_dict d k :
  Py.getitem (VDict d) k =
  match Py.lookup k d with
  | Some x => Ok x
  | None => raise KeyError (Py.repr_str k)
  end.
Proof. reflexivity. Qed.

Lemma file_ok_segment file :
  file_ok file = true <-> exists seg, file_segment file = Some seg.
Proof.
  destruct file; cbn [file_ok file_segment];
    try (split; [discriminate | intros [? ?]; discriminate]).
  unfold has_key.
  destruct (Py.lookup "filename" d), (Py.lookup "status" d),
    (Py.lookup "additions" d), (Py.lookup "deletions" d); cbn;
    split; try discriminate; try (intros [? ?]; discriminate);
    try reflexivity; intros _; eexists; reflexivity.
Qed.

(** The loop body appends the file's segment to what was built so far,
    or raises when the record lacks a field. *)
Lemma format_file_segment acc file :
  match file_segment file with
  | Some seg => format_file acc file = Ok (acc ++ seg)
  | None => exists e, format_file acc file = Raise e /\ is_fault e
  end.
Proof.
  destruct file;
    try (cbn [file_segment]; eexists; split; [reflexivity | now right]).
  cbn [file_segment]. unfold format_file. rewrite !getitem_dict.
  destruct (Py.lookup "filename" d) as [n|];
    [|eexists; split; [reflexivity | now left]].
  destruct (Py.lookup "status" d) as [s|];
    [|eexists; split; [reflexivity | now left]].
  destruct (Py.lookup "additions" d) as [a|];
    [|eexists; split; [reflexivity | now left]].
  destruct (Py.lookup "deletions" d) as [dl|];
    [|eexists; split; [reflexivity | now left]].
  cbn [bind]. unfold summary_lines.
  destruct (Py.ne_str s "removed").
  - cbn [Py.contains bind]. rewrite existsb_key. unfold has_key.
    destruct (Py.lookup "patch" d) as [p|]; cbn [bind].
    + unfold diff_block. now rewrite !StrFacts.app_assoc.
    + now rewrite StrFacts.app_nil_r, !StrFacts.app_assoc.
  - now rewrite StrFacts.app_nil_r, !StrFacts.app_assoc.
Qed.

(** The whole loop: the segments of the items, in the order of the items,
    appended to the text built before the loop. *)
Lemma for_each_segments items : forall acc,
  match segments items with
  | Some segs =>
      Py.for_each items acc format_file = Ok (acc ++ Str.concat_all segs)
  | None => exists e, Py.for_each items acc format_file = Raise e /\ is_fault e
  end.
Proof.
  induction items as [|f items IH]; intros acc.
  - cbn. now rewrite StrFacts.app_nil_r.
  - cbn [segments Py.for_each].
    pose proof (format_file_segment acc f) as Hf.
    destruct (file_segment f) as [seg|].
    + rewrite Hf. specialize (IH (acc ++ seg)).
      destruct (segments items) as [segs|].
      * rewrite IH. cbn [Str.concat_all]. now rewrite StrFacts.app_assoc.
      * exact IH.
    + destruct Hf as (e & -> & He). now exists e.
Qed.

Lemma segments_forallb items :
  forallb file_ok items = true <-> exists segs, segments items = Some segs.
Proof.
  induction items as [|f items IH]; cbn [forallb segments].
  - split; [now exists [] | reflexivity].
  - rewrite andb_true_iff, IH, file_ok_segment. split.
    + intros [[seg ->] [segs ->]]. now eexists.
    + destruct (file_segment f); [|intros [? ?]; discriminate].
      destruct (segments items); [|intros [? ?]; discriminate].
      intros _. split; now eexists.
Qed.


End FormatFacts.

Module FormatCases.
Import FormatFacts.

Lemma data_pr pr files : Py.getitem (pull_request_data pr files) "pr" = Ok pr.
Proof. reflexivity. Qed.

Lemma data_files pr files :
  Py.getitem (pull_request_data pr files) "files" = Ok files.
Proof. reflexivity. Qed.

Ltac fault := eexists; split; [reflexivity | first [now left | now right]].

Ltac field_or_fault d k :=
  destruct (Py.lookup k d); cbn [bind andb]; [|fault].

(** The formatter returns the header followed by the segments of the
    files exactly on the well-formed inputs, and raises on the others. *)
Lemma format_cases pr files :
  if pr_ok pr && files_ok files
  then exists segs,
         segments (items_of files) = Some segs
         /\ format_pr_for_review (pull_request_data pr files)
            = Ok (header_text pr files ++ Str.concat_all segs)
  else exists e,
         format_pr_for_review (pull_request_data pr files) = Raise e
         /\ is_fault e.
Proof.
  unfold format_pr_for_review. rewrite data_pr, data_files. cbn [bind].
  unfold header_text, field.
  destruct pr as [| | | | |l|d]; cbn [pr_ok andb]; try fault.
  cbn [Py.getitem]. unfold has_key.
  field_or_fault d "title".
  destruct (Py.lookup "user" d) as [u|]; cbn [bind andb]; [|fault].
  destruct u as [| | | | |l|u]; cbn [andb]; try fault.
  cbn [Py.getitem].
  field_or_fault u "login".
  field_or_fault d "state".
  field_or_fault d "created_at".
  field_or_fault d "updated_at".
  field_or_fault d "body".
  unfold items_of, count_of.
  destruct files as [| | | |s|l|fs]; cbn [files_ok]; try fault.
  - destruct s as [|c s]; cbn [Text.eqb]; [|fault].
    exists []. split; [reflexivity|].
    cbn. now rewrite StrFacts.app_nil_r.
  - cbn [Py.len Py.iter bind].
    pose proof (for_each_segments l) as Hl.
    destruct (forallb file_ok l) eqn:E.
    + apply segments_forallb in E as [segs E]. exists segs.
      split; [exact E|]. specialize (Hl (format_header v v0 v1 v2 v3 v4
                                          (Z.of_nat (Datatypes.length l)))).
      now rewrite E in Hl.
    + destruct (segments l) as [segs|] eqn:Es.
      * assert (forallb file_ok l = true) by (apply segments_forallb; eauto).
        congruence.
      * apply Hl.
  - destruct fs as [|[k x] fs]; [|fault].
    exists []. split; [reflexivity|].
    cbn. now rewrite StrFacts.app_nil_r.
Qed.

End FormatCases.

(** * The claims *)

(** ** URL Parser *)

(** C1, as stated, fails: for the sample URL the third component returned
    is the str "42", which is not the int 42. *)
Lemma parse_number_is_not_an_int :
  parse_github_url sample_url = (VStr "octocat", VStr "Hello-World", VStr "42")
  /\ parse_github_url sample_url
     <> (VStr "octocat", VStr "Hello-World", VInt 42).
Proof. split; [reflexivity | discriminate]. Qed.

(** C1, amended: every input that matches the pattern, that is, every
    string that begins with https://github.com/<owner>/<repo>/pull/<number>
    with owner and repo non-empty and free of slashes and number a
    non-empty run of decimal digits, yields a triple of strs: the owner,
    the repo, and the number as the text of the whole run of digits at
    its place (what follows it does not start with a digit).  The number
    is left as text and is not converted to an int.  For the sample URL
    the result is ("octocat", "Hello-World", "42"), the digits denoting
    42. *)
Theorem parse_returns_digit_text :
  (forall url,
     (exists owner repo number tail,
        url = pr_url_text owner repo number ++ tail
        /\ is_segment owner = true /\ is_segment repo = true
        /\ is_digits number = true) ->
     exists owner repo number tail,
       url = pr_url_text owner repo number ++ tail
       /\ is_segment owner = true /\ is_segment repo = true
       /\ is_digits number = true
       /\ Str.head_ok is_digit tail = false
       /\ parse_github_url url = (VStr owner, VStr repo, VStr number))
  /\ parse_github_url sample_url = (VStr "octocat", VStr "Hello-World", VStr "42")
  /\ decimal_value "42" = 42%Z.
Proof.
  split; [|split; reflexivity].
  intros url (o & r & n & tail & -> & Ho & Hr & Hn).
  pose proof (re_match_complete o r n tail Ho Hr Hn) as E.
  exists o, r, (n ++ Str.take_while is_digit tail), (Str.drop_while is_digit tail).
  split; [|split; [exact Ho | split; [exact Hr | split; [|split]]]].
  - unfold pr_url_text.
    rewrite <- (StrFacts.take_drop_while is_digit tail) at 1.
    now rewrite !StrFacts.app_assoc.
  - unfold is_digits in *. apply andb_true_iff in Hn as [Hne Hall].
    rewrite StrFacts.forallb_app, Hall, StrFacts.forallb_take_while.
    destruct n; [discriminate | reflexivity].
  - apply StrFacts.head_drop_while.
  - unfold parse_github_url. now rewrite E.
Qed.

(** C10: a string that begins with a well-formed PR URL is accepted
    whatever follows; the owner and the repository are the two path
    segments and the number is the whole leading run of digits (the
    decimal digits that [\d] matches), the rest of the string being
    ignored. *)
Theorem parse_accepts_any_tail (owner repo number tail : string) :
  is_segment owner = true -> is_segment repo = true -> is_digits number = true ->
  parse_github_url (pr_url_text owner repo number ++ tail)
  = (VStr owner, VStr repo, VStr (number ++ Str.take_while is_digit tail)).
Proof.
  intros Ho Hr Hn. unfold parse_github_url.
  now rewrite re_match_complete.
Qed.

Lemma parse_accepts_any_tail_witness :
  parse_github_url "https://github.com/o/r/pull/123/files"
  = (VStr "o", VStr "r", VStr "123").
Proof.
  exact (parse_accepts_any_tail "o" "r" "123" "/files"
           eq_refl eq_refl eq_refl).
Defined.

Example parse_sample :
  parse_github_url "https://github.com/octocat/Hello-World/pull/42"
  = (VStr "octocat", VStr "Hello-World", VStr "42").
Proof. reflexivity. Qed.

Example parse_files :
  parse_github_url "https://github.com/o/r/pull/123/files"
  = (VStr "o", VStr "r", VStr "123").
Proof. reflexivity. Qed.

Example parse_bad :
  parse_github_url "http://github.com/o/r/pull/123" = (VNone, VNone, VNone).
Proof. reflexivity. Qed.

(** The digits of [\d] are those of every script, and the run of digits
    that is captured goes on through them. *)
Example parse_other_digits :
  parse_github_url "https://github.com/o/r/pull/12٣x"
  = (VStr "o", VStr "r", VStr "12٣")
  /\ parse_github_url "https://github.com/o/r/pull/１２３"
     = (VStr "o", VStr "r", VStr "１２３")
  /\ parse_github_url "https://github.com/o/r/pull/²"
     = (VNone, VNone, VNone).
Proof. repeat split; reflexivity. Qed.

Example parse_query_tail :
  parse_github_url "https://github.com/o/r/pull/123?tab=x"
  = (VStr "o", VStr "r", VStr "123").
Proof. reflexivity. Qed.

Example parse_letters_tail :
  parse_github_url "https://github.com/o/r/pull/123abc"
  = (VStr "o", VStr "r", VStr "123").
Proof. reflexivity. Qed.

(** ** Prompt Formatter *)

Module SegmentFacts.

Lemma contains_right needle x y :
  Str.contains needle y = true -> Str.contains needle (x ++ y) = true.
Proof.
  intros H. apply StrFacts.contains_inv in H as (pre & post & ->).
  rewrite <- StrFacts.app_assoc. apply StrFacts.contains_app.
Qed.

Lemma contains_left needle x y :
  Str.contains needle x = true -> Str.contains needle (x ++ y) = true.
Proof.
  intros H. apply StrFacts.contains_inv in H as (pre & post & ->).
  rewrite !StrFacts.app_assoc. apply StrFacts.contains_app.
Qed.

Lemma contains_here needle post : Str.contains needle (needle ++ post) = true.
Proof. exact (StrFacts.contains_app needle "" post). Qed.

(** A text that holds [needle] holds every character of [needle]. *)
Lemma contains_has_char needle hay c :
  Str.has_char c needle = true -> Str.contains needle hay = true ->
  Str.has_char c hay = true.
Proof.
  intros Hc H. apply StrFacts.contains_inv in H as (pre & post & ->).
  now rewrite !StrFacts.has_char_app, Hc, orb_true_r.
Qed.

Lemma field_dict k d x : Py.lookup k d = Some x -> field k (VDict d) = x.
Proof. unfold field. cbn [Py.getitem]. now intros ->. Qed.

Lemma summary_no_fence n a dl :
  Str.has_char backtick (Py.str n ++ Py.str a ++ Py.str dl) = false ->
  Str.contains "```diff" (summary_lines n (VStr "removed") a dl) = false.
Proof.
  intros H. rewrite !StrFacts.has_char_app in H.
  apply orb_false_iff in H as [Hn H]. apply orb_false_iff in H as [Ha Hd].
  destruct (Str.contains _ _) eqn:E; [|reflexivity].
  apply (contains_has_char "```diff" _ backtick) in E; [|reflexivity].
  unfold summary_lines in E. rewrite !StrFacts.has_char_app in E.
  rewrite Hn, Ha, Hd in E. discriminate E.
Qed.

End SegmentFacts.

Module PinFacts.

Lemma concat_all_app a b :
  Str.concat_all (a ++ b) = Str.concat_all a ++ Str.concat_all b.
Proof.
  induction a as [|x a IH]; [reflexivity|].
  cbn [List.app Str.concat_all]. now rewrite IH, StrFacts.app_assoc.
Qed.

(** The segment the loop appends for a record is the text the record
    stands for. *)
Lemma segment_is_text file seg :
  file_segment file = Some seg -> seg = segment_text file.
Proof.
  destruct file; try discriminate. cbn [file_segment].
  unfold segment_text, patch_block.
  destruct (Py.lookup "filename" d) as [n|] eqn:En; [|discriminate].
  destruct (Py.lookup "status" d) as [st|] eqn:Es; [|discriminate].
  destruct (Py.lookup "additions" d) as [a|] eqn:Ea; [|discriminate].
  destruct (Py.lookup "deletions" d) as [dl|] eqn:Ed; [|discriminate].
  rewrite (SegmentFacts.field_dict _ _ _ En), (SegmentFacts.field_dict _ _ _ Es),
    (SegmentFacts.field_dict _ _ _ Ea), (SegmentFacts.field_dict _ _ _ Ed).
  cbn [Py.getitem]. intros [= <-].
  now destruct (Py.lookup "patch" d).
Qed.

Lemma segments_are_texts l : forall segs,
  segments l = Some segs -> segs = map segment_text l.
Proof.
  induction l as [|file l IH]; cbn [segments map]; intros segs H.
  - now injection H as <-.
  - destruct (file_segment file) as [seg|] eqn:Ef; [|discriminate].
    destruct (segments l) as [segs'|]; [|discriminate].
    injection H as <-. now rewrite (segment_is_text _ _ Ef), (IH segs' eq_refl).
Qed.

(** The document of well-formed data: the header, then the texts of the
    records of the list, one after the other. *)
Lemma format_list pr l :
  pr_ok pr = true -> forallb file_ok l = true ->
  format_pr_for_review (pull_request_data pr (VList l))
  = Ok (header_text pr (VList l) ++ Str.concat_all (map segment_text l)).
Proof.
  intros Hpr Hl. pose proof (FormatCases.format_cases pr (VList l)) as H.
  cbn [files_ok] in H. rewrite Hpr, Hl in H. destruct H as (segs & Hsegs & ->).
  change (items_of (VList l)) with l in Hsegs.
  now rewrite (segments_are_texts l segs Hsegs).
Qed.

Lemma segment_text_removed file :
  field "status" file = VStr "removed" ->
  segment_text file
  = summary_lines (field "filename" file) (VStr "removed")
      (field "additions" file) (field "deletions" file).
Proof.
  intros H. unfold segment_text. rewrite H.
  change (Py.ne_str (VStr "removed") "removed") with false.
  apply StrFacts.app_nil_r.
Qed.

End PinFacts.

(** C5: the document of well-formed data is the header followed by the
    texts of the file records, in the order of the list and with nothing
    else.  The text of a record whose status is "removed" is exactly its
    three summary lines (heading, status, counts), with or without a
    patch field in the record, so the document holds no fenced diff block
    for that file: unless the file name or the counts themselves print a
    backtick, "```diff" does not occur in its text, and the text that
    follows is that of the next record, which opens with its own
    heading.  The text of any other record is its summary lines followed
    by the diff of its own patch. *)
Theorem removed_file_has_no_diff_block (pr : value) (l : list value) :
  pr_ok pr = true -> forallb file_ok l = true ->
  format_pr_for_review (pull_request_data pr (VList l))
  = Ok (header_text pr (VList l) ++ Str.concat_all (map segment_text l))
  /\ (forall file,
        field "status" file = VStr "removed" ->
        segment_text file
        = summary_lines (field "filename" file) (VStr "removed")
            (field "additions" file) (field "deletions" file)
        /\ (Str.has_char backtick
              (Py.str (field "filename" file)
               ++ Py.str (field "additions" file)
               ++ Py.str (field "deletions" file)) = false ->
            Str.contains "```diff" (segment_text file) = false))
  /\ (forall file,
        field "status" file <> VStr "removed" ->
        segment_text file
        = summary_lines (field "filename" file) (field "status" file)
            (field "additions" file) (field "deletions" file)
          ++ patch_block file)
  /\ (forall file,
        exists rest,
          segment_text file
          = (nl ++ "### " ++ Py.str (field "filename" file)) ++ rest).
Proof.
  intros Hpr Hl. split; [now apply PinFacts.format_list|]. repeat split.
  - now apply PinFacts.segment_text_removed.
  - rewrite (PinFacts.segment_text_removed file H).
    apply SegmentFacts.summary_no_fence.
  - intros file Hs. unfold segment_text.
    destruct (Py.ne_str (field "status" file) "removed") eqn:E; [reflexivity|].
    destruct (field "status" file); try discriminate.
    cbn [Py.ne_str] in E. apply negb_false_iff in E.
    apply TextFacts.eqb_eq in E. congruence.
  - intros file. unfold segment_text, summary_lines.
    eexists. rewrite !StrFacts.app_assoc. reflexivity.
Qed.

(** C6: when the body of the pull request is [None] or the empty str, the
    document holds the text "No description provided". *)
Theorem empty_body_gets_placeholder (pr files body : value) :
  pr_ok pr = true -> files_ok files = true ->
  Py.getitem pr "body" = Ok body ->
  body = VNone \/ body = VStr "" ->
  exists out,
    format_pr_for_review (pull_request_data pr files) = Ok out
    /\ Str.contains "No description provided" out = true.
Proof.
  intros Hpr Hfiles Hbody Hempty.
  pose proof (FormatCases.format_cases pr files) as H.
  rewrite Hpr, Hfiles in H. destruct H as (segs & _ & Hout).
  eexists. split; [exact Hout|].
  apply SegmentFacts.contains_left.
  unfold header_text, format_header.
  replace (Py.or_ (field "body" pr) (VStr "No description provided"))
    with (VStr "No description provided")
    by (unfold field; rewrite Hbody; now destruct Hempty as [-> | ->]).
  cbn [Py.str].
  repeat first [ apply SegmentFacts.contains_here
               | apply SegmentFacts.contains_right ].
Qed.

(** C8: the document of well-formed data is the header followed by the
    texts of the file records taken in the order of the input list, one
    per record and nothing else: for every place in the list, the text of
    the record at that place comes after the texts of the records before
    it and before the texts of the records after it.  Each text opens
    with the heading that names its file. *)
Theorem files_keep_their_order (pr : value) (l : list value) :
  pr_ok pr = true -> forallb file_ok l = true ->
  format_pr_for_review (pull_request_data pr (VList l))
  = Ok (header_text pr (VList l) ++ Str.concat_all (map segment_text l))
  /\ (forall before file after,
        l = (before ++ file :: after)%list ->
        format_pr_for_review (pull_request_data pr (VList l))
        = Ok (header_text pr (VList l)
              ++ Str.concat_all (map segment_text before)
              ++ segment_text file
              ++ Str.concat_all (map segment_text after)))
  /\ (forall file,
        exists rest,
          segment_text file
          = (nl ++ "### " ++ Py.str (field "filename" file)) ++ rest).
Proof.
  intros Hpr Hl. pose proof (PinFacts.format_list pr l Hpr Hl) as Hout.
  split; [exact Hout|]. split.
  - intros before file after E. rewrite Hout. rewrite E at 2.
    now rewrite map_app, PinFacts.concat_all_app.
  - intros file. unfold segment_text, summary_lines.
    eexists. rewrite !StrFacts.app_assoc. reflexivity.
Qed.

Lemma removed_file_has_no_diff_block_witness :
  format_pr_for_review (pull_request_data sample_pr (VList sample_records))
  = Ok (header_text sample_pr (VList sample_records)
        ++ Str.concat_all (map segment_text sample_records))
  /\ (forall file,
        field "status" file = VStr "removed" ->
        segment_text file
        = summary_lines (field "filename" file) (VStr "removed")
            (field "additions" file) (field "deletions" file)
        /\ (Str.has_char backtick
              (Py.str (field "filename" file)
               ++ Py.str (field "additions" file)
               ++ Py.str (field "deletions" file)) = false ->
            Str.contains "```diff" (segment_text file) = false))
  /\ (forall file,
        field "status" file <> VStr "removed" ->
        segment_text file
        = summary_lines (field "filename" file) (field "status" file)
            (field "additions" file) (field "deletions" file)
          ++ patch_block file)
  /\ (forall file,
        exists rest,
          segment_text file
          = (nl ++ "### " ++ Py.str (field "filename" file)) ++ rest).
Proof.
  exact (removed_file_has_no_diff_block sample_pr sample_records eq_refl eq_refl).
Defined.

Lemma empty_body_gets_placeholder_witness :
  exists out,
    format_pr_for_review (pull_request_data sample_pr sample_files) = Ok out
    /\ Str.contains "No description provided" out = true.
Proof.
  exact (empty_body_gets_placeholder sample_pr sample_files VNone
           eq_refl eq_refl eq_refl (or_introl eq_refl)).
Defined.

Lemma files_keep_their_order_witness :
  format_pr_for_review (pull_request_data sample_pr (VList sample_records))
  = Ok (header_text sample_pr (VList sample_records)
        ++ Str.concat_all (map segment_text sample_records))
  /\ (forall before file after,
        sample_records = (before ++ file :: after)%list ->
        format_pr_for_review (pull_request_data sample_pr (VList sample_records))
        = Ok (header_text sample_pr (VList sample_records)
              ++ Str.concat_all (map segment_text before)
              ++ segment_text file
              ++ Str.concat_all (map segment_text after)))
  /\ (forall file,
        exists rest,
          segment_text file
          = (nl ++ "### " ++ Py.str (field "filename" file)) ++ rest).
Proof.
  exact (files_keep_their_order sample_pr sample_records eq_refl eq_refl).
Defined.

(** The segments of the sample: a diff block for the added file, none for
    the removed one. *)
Example sample_segments :
  segments (items_of sample_files)
  = Some [summary_lines (VStr "src/new.py") (VStr "added") (VInt 3) (VInt 0)
            ++ diff_block (VStr "@@ -0,0 +1,3 @@");
          summary_lines (VStr "src/old.py") (VStr "removed") (VInt 0) (VInt 7)].
Proof. reflexivity. Qed.

(** ** PR Data Fetcher *)

(** What [fetch_pr_data] returns, as a function of those two answers. *)
Lemma fetch_pr_data_cases self owner repo pr_number env tr :
  exists tr',
    fetch_pr_data self owner repo pr_number env tr =
    (match metadata_get self owner repo pr_number env tr with
     | Raise e => Ok (VNone, VStr ("Error: " ++ exn_str e))
     | Ok r1 =>
         match files_get self owner repo pr_number env tr with
         | Raise e => Ok (VNone, VStr ("Error: " ++ exn_str e))
         | Ok r2 =>
             if negb (status_code r1 =? 200)%Z then
               Ok (VNone, VStr ("Error fetching PR: " ++ str_of_Z (status_code r1)))
             else if negb (status_code r2 =? 200)%Z then
               Ok (VNone,
                   VStr ("Error fetching PR files: " ++ str_of_Z (status_code r2)))
             else
               match json r1 with
               | Raise e => Ok (VNone, VStr ("Error: " ++ exn_str e))
               | Ok j1 =>
                   match json r2 with
                   | Raise e => Ok (VNone, VStr ("Error: " ++ exn_str e))
                   | Ok j2 => Ok (pull_request_data j1 j2, VNone)
                   end
               end
         end
     end, tr').
Proof.
  unfold fetch_pr_data, metadata_get, files_get, Eff.try_except, Eff.bind,
    Eff.get, Eff.lift, Eff.ret.
  destruct (requests_get env tr _ _) as [r1|e1]; [|eexists; reflexivity].
  destruct (requests_get env _ _ _) as [r2|e2]; [|eexists; reflexivity].
  destruct (negb (status_code r1 =? 200)%Z); [eexists; reflexivity|].
  destruct (negb (status_code r2 =? 200)%Z); [eexists; reflexivity|].
  destruct (json r1) as [j1|e1]; [|eexists; reflexivity].
  destruct (json r2) as [j2|e2]; eexists; reflexivity.
Qed.

(** C2, as stated, fails: both GET calls answered with the 2xx status 202
    and a well-formed JSON body, and the result is an error. *)
Lemma fetch_rejects_status_202 :
  (exists r1 r2 j1 j2,
     metadata_get reviewer_without_key (VStr "o") (VStr "r") (VStr "1")
       (status_stub 202) [] = Ok r1
     /\ files_get reviewer_without_key (VStr "o") (VStr "r") (VStr "1")
          (status_stub 202) [] = Ok r2
     /\ (200 <= status_code r1 < 300)%Z /\ (200 <= status_code r2 < 300)%Z
     /\ json r1 = Ok j1 /\ json r2 = Ok j2)
  /\ fst (fetch_pr_data reviewer_without_key (VStr "o") (VStr "r") (VStr "1")
            (status_stub 202) [])
     = Ok (VNone, VStr "Error fetching PR: 202").
Proof.
  split; [|reflexivity].
  do 4 eexists. repeat split; try reflexivity; cbn; lia.
Qed.

(** C2, amended: [fetch_pr_data] returns without an error exactly when
    both GET calls return a response whose status is 200 (not merely 2xx)
    and whose body decodes; it then returns the two decoded bodies as the
    data.  In every other case (a call raises, a status differs from 200,
    a body does not decode) the error component is set. *)
Theorem fetch_succeeds_iff_both_200 self owner repo pr_number env tr :
  exists data err tr',
    fetch_pr_data self owner repo pr_number env tr = (Ok (data, err), tr')
    /\ (forall r1 r2 j1 j2,
          metadata_get self owner repo pr_number env tr = Ok r1 ->
          files_get self owner repo pr_number env tr = Ok r2 ->
          status_code r1 = 200%Z -> status_code r2 = 200%Z ->
          json r1 = Ok j1 -> json r2 = Ok j2 ->
          data = pull_request_data j1 j2 /\ err = VNone)
    /\ (err = VNone ->
        exists r1 r2 j1 j2,
          metadata_get self owner repo pr_number env tr = Ok r1
          /\ files_get self owner repo pr_number env tr = Ok r2
          /\ status_code r1 = 200%Z /\ status_code r2 = 200%Z
          /\ json r1 = Ok j1 /\ json r2 = Ok j2).
Proof.
  destruct (fetch_pr_data_cases self owner repo pr_number env tr) as [tr' ->].
  destruct (metadata_get _ _ _ _ _ _) as [r1|e1].
  2:{ do 3 eexists. split; [reflexivity|]. split; [discriminate|discriminate]. }
  destruct (files_get _ _ _ _ _ _) as [r2|e2].
  2:{ do 3 eexists. split; [reflexivity|]. split; [discriminate|discriminate]. }
  destruct (Z.eqb_spec (status_code r1) 200) as [E1|E1]; cbn [negb].
  2:{ do 3 eexists. split; [reflexivity|]. split; [|discriminate].
      intros ? ? ? ? [= <-] _ ? . contradiction. }
  destruct (Z.eqb_spec (status_code r2) 200) as [E2|E2]; cbn [negb].
  2:{ do 3 eexists. split; [reflexivity|]. split; [|discriminate].
      intros ? ? ? ? _ [= <-] _ ?. contradiction. }
  destruct (json r1) as [j1|x1] eqn:J1.
  2:{ do 3 eexists. split; [reflexivity|]. split; [|discriminate].
      intros ? ? ? ? [= <-] _ _ _ ?. congruence. }
  destruct (json r2) as [j2|x2] eqn:J2.
  2:{ do 3 eexists. split; [reflexivity|]. split; [|discriminate].
      intros ? ? ? ? _ [= <-] _ _ _ ?. congruence. }
  do 3 eexists. split; [reflexivity|]. split.
  - intros ? ? ? ? [= <-] [= <-] _ _ ? ?. split; congruence.
  - intros _. now exists r1, r2, j1, j2.
Qed.

(** C4, as stated, fails: the metadata call answered with 404 and the
    files call raising, the message returned is the text of the exception
    and does not hold "404". *)
Lemma fetch_404_message_lost :
  (exists r1,
     metadata_get reviewer_without_key (VStr "o") (VStr "r") (VStr "1")
       not_found_then_down [] = Ok r1
     /\ status_code r1 = 404%Z)
  /\ fst (fetch_pr_data reviewer_without_key (VStr "o") (VStr "r") (VStr "1")
            not_found_then_down [])
     = Ok (VNone, VStr "Error: Connection aborted.")
  /\ Str.contains "404" "Error: Connection aborted." = false.
Proof.
  split; [eexists; split; reflexivity|]. split; reflexivity.
Qed.

(** C4, amended: when the metadata call returns status 404, no data is
    returned; when moreover the files call returns a response, of any
    status, the message is "Error fetching PR: 404", which holds "404";
    when the files call raises instead, the message is "Error: " followed
    by the text of that exception. *)
Theorem fetch_404_is_an_error self owner repo pr_number env tr r1 :
  metadata_get self owner repo pr_number env tr = Ok r1 ->
  status_code r1 = 404%Z ->
  exists msg tr',
    fetch_pr_data self owner repo pr_number env tr = (Ok (VNone, VStr msg), tr')
    /\ (forall r2, files_get self owner repo pr_number env tr = Ok r2 ->
          msg = "Error fetching PR: 404" /\ Str.contains "404" msg = true)
    /\ (forall e, files_get self owner repo pr_number env tr = Raise e ->
          msg = "Error: " ++ exn_str e).
Proof.
  intros H1 Hs.
  destruct (fetch_pr_data_cases self owner repo pr_number env tr) as [tr' ->].
  rewrite H1, Hs.
  destruct (files_get _ _ _ _ _ _) as [r2|e2].
  - do 2 eexists. split; [reflexivity|]. split; [|discriminate].
    intros _ _. split; reflexivity.
  - do 2 eexists. split; [reflexivity|]. split; [discriminate|].
    now intros ? [= <-].
Qed.

Lemma fetch_404_is_an_error_witness :
  exists msg tr',
    fetch_pr_data reviewer_without_key (VStr "o") (VStr "r") (VStr "1")
      (status_stub 404) [] = (Ok (VNone, VStr msg), tr')
    /\ (forall r2,
          files_get reviewer_without_key (VStr "o") (VStr "r") (VStr "1")
            (status_stub 404) [] = Ok r2 ->
          msg = "Error fetching PR: 404" /\ Str.contains "404" msg = true)
    /\ (forall e,
          files_get reviewer_without_key (VStr "o") (VStr "r") (VStr "1")
            (status_stub 404) [] = Raise e ->
          msg = "Error: " ++ exn_str e).
Proof.
  exact (fetch_404_is_an_error reviewer_without_key (VStr "o") (VStr "r")
           (VStr "1") (status_stub 404) []
           (Response 404 (Ok (VDict []))) eq_refl eq_refl).
Defined.

(** C9: [fetch_pr_data] always returns a pair of which exactly one
    component is [None]: the data (the dict of the two decoded bodies)
    with no error, or no data with a non-empty error message. *)
Theorem fetch_returns_data_xor_error self owner repo pr_number env tr :
  exists data err tr',
    fetch_pr_data self owner repo pr_number env tr = (Ok (data, err), tr')
    /\ ((data <> VNone /\ err = VNone
         /\ exists pr_data files_data, data = pull_request_data pr_data files_data)
        \/ (data = VNone /\ err <> VNone
            /\ exists msg, err = VStr msg /\ Py.truthy err = true)).
Proof.
  destruct (fetch_pr_data_cases self owner repo pr_number env tr) as [tr' ->].
  assert (Herr : forall msg,
    exists data err tr'' ,
      (Ok (VNone, VStr ("Error" ++ msg)), tr') = (Ok (data, err), tr'')
      /\ ((data <> VNone /\ err = VNone
           /\ exists pr_data files_data, data = pull_request_data pr_data files_data)
          \/ (data = VNone /\ err <> VNone
              /\ exists m, err = VStr m /\ Py.truthy err = true))).
  { intros msg. do 3 eexists. split; [reflexivity|]. right.
    split; [reflexivity|]. split; [discriminate|]. eexists. now split. }
  destruct (metadata_get _ _ _ _ _ _) as [r1|e1]; [|apply (Herr (": " ++ _))].
  destruct (files_get _ _ _ _ _ _) as [r2|e2]; [|apply (Herr (": " ++ _))].
  destruct (negb (status_code r1 =? 200)%Z); [apply (Herr (" fetching PR: " ++ _))|].
  destruct (negb (status_code r2 =? 200)%Z);
    [apply (Herr (" fetching PR files: " ++ _))|].
  destruct (json r1) as [j1|x1]; [|apply (Herr (": " ++ _))].
  destruct (json r2) as [j2|x2]; [|apply (Herr (": " ++ _))].
  do 3 eexists. split; [reflexivity|]. left.
  split; [discriminate|]. split; [reflexivity|]. now exists j1, j2.
Qed.

(** ** Review Generator *)

(** C7: when the model key is unset or empty in the environment, the
    reviewer that [__init__] builds answers every document with the fixed
    text "Claude API key not configured", returned as a value, and leaves
    the trace as it was: no completion call is issued. *)
Theorem generate_review_without_key (getenv : string -> option string)
    (env : Env) (tr0 : trace) :
  nonempty (getenv "ANTHROPIC_API_KEY") = false ->
  exists self tr1,
    init getenv env tr0 = (Ok self, tr1)
    /\ forall pr_text env' tr,
         generate_review self pr_text env' tr
         = (Ok "Claude API key not configured", tr).
Proof.
  intros Hkey. unfold init, Eff.bind, Eff.ret, Eff.st_error. rewrite Hkey.
  destruct (nonempty (getenv "GITHUB_TOKEN")); do 2 eexists;
    (split; [reflexivity|]); intros pr_text env' tr;
    unfold generate_review; cbn [client];
    destruct (getenv "ANTHROPIC_API_KEY"); reflexivity.
Qed.

Lemma generate_review_without_key_witness :
  exists self tr1,
    init (fun _ => None) (status_stub 200) [] = (Ok self, tr1)
    /\ forall pr_text env' tr,
         generate_review self pr_text env' tr
         = (Ok "Claude API key not configured", tr).
Proof.
  exact (generate_review_without_key (fun _ => None) (status_stub 200) []
           eq_refl).
Defined.

(** With a key, one completion call is issued and its failure comes back
    as text. *)
Example generate_review_reports_failure :
  generate_review
    {| github_token := None; anthropic_api_key := Some "sk";
       client := Some {| api_key := "sk" |} |}
    "doc" (status_stub 200) []
  = (Ok "Error generating review: Connection error.",
     [MessagesCreate "claude-3-sonnet-20240229" 4000
        [[("role", "user"); ("content", review_prompt "doc")]]]).
Proof. reflexivity. Qed.

(** ** Faults *)

(** C3, as stated, fails: on metadata that lacks the author the formatter
    raises [KeyError] instead of returning. *)
Lemma format_raises_on_missing_field :
  format_pr_for_review
    (pull_request_data (VDict [("title", VStr "Fix bug")]) (VList []))
  = Raise (Exn KeyError "'user'").
Proof. reflexivity. Qed.

(** C3, amended: the parser, the fetcher and the generator return on
    every input (the parser three [None] or three strs, the fetcher a
    pair, the generator a text), whatever the services answer or raise.
    The formatter returns a document exactly when the metadata and every
    file record carry the fields it reads; on any other input it raises a
    [KeyError] or a [TypeError], which nothing in the program catches. *)
Theorem stages_return_or_formatter_raises :
  (forall url,
     parse_github_url url = (VNone, VNone, VNone)
     \/ exists owner repo number,
          parse_github_url url = (VStr owner, VStr repo, VStr number))
  /\ (forall self owner repo pr_number env tr,
        exists res tr',
          fetch_pr_data self owner repo pr_number env tr = (Ok res, tr'))
  /\ (forall self pr_text env tr,
        exists text tr', generate_review self pr_text env tr = (Ok text, tr'))
  /\ (forall pr files,
        if pr_ok pr && files_ok files
        then exists out,
               format_pr_for_review (pull_request_data pr files) = Ok out
        else exists e,
               format_pr_for_review (pull_request_data pr files) = Raise e
               /\ is_fault e).
Proof.
  repeat split.
  - intros url. unfold parse_github_url.
    destruct (Re.re_match pattern url) as [gs|] eqn:E; [|now left].
    destruct (re_match_sound _ _ E) as (o & r & n & _ & _ & _ & _ & _ & ->).
    right. now exists o, r, n.
  - intros self owner repo pr_number env tr.
    destruct (fetch_pr_data_cases self owner repo pr_number env tr) as [tr' ->].
    destruct (metadata_get _ _ _ _ _ _) as [r1|]; [|now eauto].
    destruct (files_get _ _ _ _ _ _) as [r2|]; [|now eauto].
    destruct (negb _); [now eauto|]. destruct (negb _); [now eauto|].
    destruct (json r1); [|now eauto]. destruct (json r2); now eauto.
  - intros self pr_text env tr.
    unfold generate_review, Eff.try_except, Eff.bind, Eff.create, Eff.lift,
      Eff.ret.
    destruct (client self); [|now eauto].
    destruct (messages_create _ _ _ _ _) as [m|]; [|now eauto].
    destruct (first_text m); now eauto.
  - intros pr files. pose proof (FormatCases.format_cases pr files) as H.
    destruct (pr_ok pr && files_ok files); [|exact H].
    destruct H as (segs & _ & H). now eauto.
Qed.

(** * Further properties of the code *)

(** ** URL Parser *)

Module ParseFacts.

Lemma app_self_inv (a b : string) : a = a ++ b -> b = "".
Proof.
  intros H. apply (f_equal Text.length) in H.
  rewrite StrFacts.length_app in H. destruct b; [reflexivity | cbn in H; lia].
Qed.

Lemma take_while_nil (p : char -> bool) (s : string) :
  Str.take_while p s = "" -> Str.head_ok p s = false.
Proof.
  destruct s as [|c s]; [reflexivity|]. cbn. now destruct (p c).
Qed.

End ParseFacts.

(** X1: the parser returns three [None] exactly on the strings that do
    not begin with https://github.com/<owner>/<repo>/pull/<digits>, owner
    and repo non-empty and free of slashes. *)
Theorem parse_accepts_exactly_pr_urls (url : string) :
  parse_github_url url <> (VNone, VNone, VNone)
  <-> exists owner repo number tail,
        url = pr_url_text owner repo number ++ tail
        /\ is_segment owner = true /\ is_segment repo = true
        /\ is_digits number = true.
Proof.
  unfold parse_github_url. split.
  - destruct (Re.re_match pattern url) as [gs|] eqn:E; [|congruence].
    intros _.
    destruct (re_match_sound _ _ E) as (o & r & n & tail & Hu & Ho & Hr & Hn & _).
    now exists o, r, n, tail.
  - intros (o & r & n & tail & -> & Ho & Hr & Hn).
    rewrite (re_match_complete o r n tail Ho Hr Hn). discriminate.
Qed.

(** X2: what the parser returns is the only reading of the input: the
    input is the URL spelled by the three strings followed by a rest that
    does not start with a digit, so the number is the longest run of
    digits at its place. *)
Theorem parse_number_is_longest_run (url owner repo number : string) :
  parse_github_url url = (VStr owner, VStr repo, VStr number) ->
  exists tail,
    url = pr_url_text owner repo number ++ tail
    /\ Str.head_ok is_digit tail = false
    /\ is_segment owner = true /\ is_segment repo = true
    /\ is_digits number = true.
Proof.
  unfold parse_github_url.
  destruct (Re.re_match pattern url) as [gs|] eqn:E; [|discriminate].
  destruct (re_match_sound _ _ E) as (o & r & n & tail & Hu & Ho & Hr & Hn & ->).
  intros [= <- <- <-]. exists tail. repeat split; try assumption.
  subst url. rewrite (re_match_complete o r n tail Ho Hr Hn) in E.
  injection E as E. apply eq_sym, ParseFacts.app_self_inv in E.
  now apply ParseFacts.take_while_nil.
Qed.

Lemma parse_number_is_longest_run_witness :
  exists tail,
    sample_url = pr_url_text "octocat" "Hello-World" "42" ++ tail
    /\ Str.head_ok is_digit tail = false
    /\ is_segment "octocat" = true /\ is_segment "Hello-World" = true
    /\ is_digits "42" = true.
Proof.
  exact (parse_number_is_longest_run sample_url "octocat" "Hello-World" "42"
           eq_refl).
Defined.

(** ** The reviewer object *)

Module InitFacts.

Lemma init_cases (getenv : string -> option string) (env : Env) (tr : trace) :
  init getenv env tr =
  (Ok {| github_token := getenv "GITHUB_TOKEN";
         anthropic_api_key := getenv "ANTHROPIC_API_KEY";
         client := match getenv "ANTHROPIC_API_KEY" with
                   | Some k => if nonempty (getenv "ANTHROPIC_API_KEY")
                               then Some {| api_key := k |} else None
                   | None => None
                   end |},
   (tr ++ missing_credentials getenv)%list).
Proof.
  unfold init, missing_credentials, Eff.bind, Eff.ret, Eff.st_error.
  destruct (nonempty (getenv "GITHUB_TOKEN"));
    destruct (nonempty (getenv "ANTHROPIC_API_KEY")); cbn [List.app];
    rewrite <- ?app_assoc, ?app_nil_r; reflexivity.
Qed.

End InitFacts.

(** X3: [__init__] always builds the reviewer, with the two credentials
    as the environment has them; the client exists exactly when the model
    key is set and non-empty, and then holds that key.  What it adds to
    the trace is exactly this: the error box of the hosting token when the
    token is unset or empty, then the error box of the model key when the
    key is unset or empty, and nothing else: no request, no completion. *)
Theorem init_reports_missing_credentials
    (getenv : string -> option string) (env : Env) (tr : trace) :
  exists self,
    init getenv env tr
    = (Ok self,
       (tr ++ (if nonempty (getenv "GITHUB_TOKEN") then []
               else [StError "Please set GITHUB_TOKEN in your environment variables"])
           ++ (if nonempty (getenv "ANTHROPIC_API_KEY") then []
               else [StError
                       "Please set ANTHROPIC_API_KEY in your environment variables"]))%list)
    /\ github_token self = getenv "GITHUB_TOKEN"
    /\ anthropic_api_key self = getenv "ANTHROPIC_API_KEY"
    /\ (forall c, client self = Some c <->
                  nonempty (getenv "ANTHROPIC_API_KEY") = true
                  /\ getenv "ANTHROPIC_API_KEY" = Some (api_key c)).
Proof.
  eexists. split; [apply InitFacts.init_cases|].
  cbn [github_token anthropic_api_key client].
  split; [reflexivity|]. split; [reflexivity|].
  intros c. destruct (getenv "ANTHROPIC_API_KEY") as [k|]; cbn [nonempty].
  - destruct (negb (k =? "")); split.
    + intros [= <-]. now split.
    + intros [_ [= ->]]. now destruct c.
    + discriminate.
    + intros [H _]. discriminate.
  - split; [discriminate | intros [H _]; discriminate].
Qed.

(** ** PR Data Fetcher *)

Module FetchFacts.

Lemma files_url_is_pr_url owner repo pr_number :
  files_url_of owner repo pr_number = pr_url_of owner repo pr_number ++ "/files".
Proof. unfold files_url_of, pr_url_of. now rewrite !StrFacts.app_assoc. Qed.

(** The calls one invocation adds to the trace. *)
Lemma fetch_trace self owner repo pr_number env tr :
  snd (fetch_pr_data self owner repo pr_number env tr)
  = (tr ++ gets_of self owner repo pr_number env tr)%list.
Proof.
  unfold gets_of, fetch_pr_data, metadata_get, Eff.try_except, Eff.bind,
    Eff.get, Eff.lift, Eff.ret.
  rewrite <- files_url_is_pr_url.
  destruct (requests_get env tr _ _) as [r1|e1]; [|reflexivity].
  assert (Hall : forall T (x : T),
    snd (x, ((tr ++ [HttpGet (pr_url_of owner repo pr_number) (headers_of self)])
               ++ [HttpGet (files_url_of owner repo pr_number) (headers_of self)])%list)
    = (tr ++ [HttpGet (pr_url_of owner repo pr_number) (headers_of self);
              HttpGet (files_url_of owner repo pr_number) (headers_of self)])%list).
  { intros. cbn [snd]. now rewrite <- app_assoc. }
  destruct (requests_get env _ _ _) as [r2|e2]; [|apply Hall].
  destruct (negb (status_code r1 =? 200)%Z); [apply Hall|].
  destruct (negb (status_code r2 =? 200)%Z); [apply Hall|].
  destruct (json r1) as [j1|x1]; [|apply Hall].
  destruct (json r2) as [j2|x2]; apply Hall.
Qed.

End FetchFacts.

(** X4: one invocation issues the metadata request and then, whatever the
    status of the answer, the files request, at the metadata URL followed
    by "/files" and with the same headers; only when the metadata request
    itself raises is the files request not issued.  Nothing else is
    called. *)
Theorem fetch_issues_both_requests self owner repo pr_number env tr :
  snd (fetch_pr_data self owner repo pr_number env tr)
  = (tr ++ HttpGet (pr_url_of owner repo pr_number) (headers_of self)
        :: match metadata_get self owner repo pr_number env tr with
           | Ok _ => [HttpGet (pr_url_of owner repo pr_number ++ "/files")
                        (headers_of self)]
           | Raise _ => []
           end)%list.
Proof.
  rewrite FetchFacts.fetch_trace. unfold gets_of.
  now destruct (metadata_get _ _ _ _ _ _).
Qed.

(** X5: when both requests are answered, a status other than 200 comes
    back as a message that ends with that status in decimal; the status of
    the metadata answer is looked at first, so its failure is the one
    reported when both fail. *)
Theorem fetch_reports_the_status self owner repo pr_number env tr r1 r2 :
  metadata_get self owner repo pr_number env tr = Ok r1 ->
  files_get self owner repo pr_number env tr = Ok r2 ->
  (status_code r1 <> 200%Z ->
   fst (fetch_pr_data self owner repo pr_number env tr)
   = Ok (VNone, VStr ("Error fetching PR: " ++ str_of_Z (status_code r1))))
  /\ (status_code r1 = 200%Z -> status_code r2 <> 200%Z ->
      fst (fetch_pr_data self owner repo pr_number env tr)
      = Ok (VNone, VStr ("Error fetching PR files: " ++ str_of_Z (status_code r2)))).
Proof.
  intros H1 H2.
  destruct (fetch_pr_data_cases self owner repo pr_number env tr) as [tr' ->].
  rewrite H1, H2. cbn [fst]. split.
  - intros Hs. apply Z.eqb_neq in Hs. now rewrite Hs.
  - intros Hs1 Hs2. apply Z.eqb_eq in Hs1. apply Z.eqb_neq in Hs2.
    now rewrite Hs1, Hs2.
Qed.

Lemma fetch_reports_the_status_witness :
  (500 <> 200 ->
   fst (fetch_pr_data reviewer_without_key (VStr "o") (VStr "r") (VStr "1")
          (status_stub 500) [])
   = Ok (VNone, VStr "Error fetching PR: 500"))%Z
  /\ (500 = 200 -> 500 <> 200 ->
      fst (fetch_pr_data reviewer_without_key (VStr "o") (VStr "r") (VStr "1")
             (status_stub 500) [])
      = Ok (VNone, VStr "Error fetching PR files: 500"))%Z.
Proof.
  exact (fetch_reports_the_status reviewer_without_key (VStr "o") (VStr "r")
           (VStr "1") (status_stub 500) []
           (Response 500 (Ok (VDict []))) (Response 500 (Ok (VDict [])))
           eq_refl eq_refl).
Defined.

(** X6: an exception of a request or of the decoding of a body never
    leaves [fetch_pr_data]: it comes back as "Error: " followed by its
    text, with no data, also when both statuses were 200 and only the
    second body fails to decode. *)
Theorem fetch_turns_exceptions_into_text self owner repo pr_number env tr :
  (forall e,
     metadata_get self owner repo pr_number env tr = Raise e ->
     fst (fetch_pr_data self owner repo pr_number env tr)
     = Ok (VNone, VStr ("Error: " ++ exn_str e)))
  /\ (forall r1 e,
        metadata_get self owner repo pr_number env tr = Ok r1 ->
        files_get self owner repo pr_number env tr = Raise e ->
        fst (fetch_pr_data self owner repo pr_number env tr)
        = Ok (VNone, VStr ("Error: " ++ exn_str e)))
  /\ (forall r1 r2 e,
        metadata_get self owner repo pr_number env tr = Ok r1 ->
        files_get self owner repo pr_number env tr = Ok r2 ->
        status_code r1 = 200%Z -> status_code r2 = 200%Z ->
        json r1 = Raise e ->
        fst (fetch_pr_data self owner repo pr_number env tr)
        = Ok (VNone, VStr ("Error: " ++ exn_str e)))
  /\ (forall r1 r2 j1 e,
        metadata_get self owner repo pr_number env tr = Ok r1 ->
        files_get self owner repo pr_number env tr = Ok r2 ->
        status_code r1 = 200%Z -> status_code r2 = 200%Z ->
        json r1 = Ok j1 -> json r2 = Raise e ->
        fst (fetch_pr_data self owner repo pr_number env tr)
        = Ok (VNone, VStr ("Error: " ++ exn_str e))).
Proof.
  destruct (fetch_pr_data_cases self owner repo pr_number env tr) as [tr' ->].
  cbn [fst]. repeat split.
  - now intros e ->.
  - now intros r1 e -> ->.
  - intros r1 r2 e -> -> -> -> ->. reflexivity.
  - intros r1 r2 j1 e -> -> -> -> -> ->. reflexivity.
Qed.

(** ** Prompt Formatter *)

Module DocFacts.

Lemma contains_refl needle : Str.contains needle needle = true.
Proof.
  rewrite <- (StrFacts.app_nil_r needle) at 2.
  apply SegmentFacts.contains_here.
Qed.

Lemma contains_four a b c d rest :
  Str.contains (a ++ b ++ c ++ d) (a ++ b ++ c ++ d ++ rest) = true.
Proof.
  replace (a ++ b ++ c ++ d ++ rest) with ((a ++ b ++ c ++ d) ++ rest)
    by now rewrite !StrFacts.app_assoc.
  apply SegmentFacts.contains_here.
Qed.



End DocFacts.



(** X8: for a list of well-formed file records, the header ends with the
    line "## Files Changed (N files):" where N is the length of the list,
    and what follows that line, up to the end of the document, is exactly
    the texts of the N records, one per record in the order of the
    list. *)
Theorem header_counts_the_files (pr : value) (l : list value) :
  pr_ok pr = true -> forallb file_ok l = true ->
  exists before,
    header_text pr (VList l) = before ++ count_line (List.length l)
    /\ format_pr_for_review (pull_request_data pr (VList l))
       = Ok (before ++ count_line (List.length l)
               ++ Str.concat_all (map segment_text l)).
Proof.
  intros Hpr Hl.
  exists (nl ++ "## Pull Request Information" ++ nl
          ++ "**Title:** " ++ Py.str (field "title" pr) ++ nl
          ++ "**Author:** " ++ Py.str (field "login" (field "user" pr)) ++ nl
          ++ "**State:** " ++ Py.str (field "state" pr) ++ nl
          ++ "**Created:** " ++ Py.str (field "created_at" pr) ++ nl
          ++ "**Updated:** " ++ Py.str (field "updated_at" pr) ++ nl
          ++ nl
          ++ "**Description:**" ++ nl
          ++ Py.str (Py.or_ (field "body" pr) (VStr "No description provided"))
          ++ nl ++ nl).
  assert (Hhead : header_text pr (VList l)
                  = (nl ++ "## Pull Request Information" ++ nl
          ++ "**Title:** " ++ Py.str (field "title" pr) ++ nl
          ++ "**Author:** " ++ Py.str (field "login" (field "user" pr)) ++ nl
          ++ "**State:** " ++ Py.str (field "state" pr) ++ nl
          ++ "**Created:** " ++ Py.str (field "created_at" pr) ++ nl
          ++ "**Updated:** " ++ Py.str (field "updated_at" pr) ++ nl
          ++ nl
          ++ "**Description:**" ++ nl
          ++ Py.str (Py.or_ (field "body" pr) (VStr "No description provided"))
          ++ nl ++ nl) ++ count_line (List.length l)).
  { unfold header_text, format_header, count_line, count_of. cbn [Py.len].
    now rewrite !StrFacts.app_assoc. }
  split; [exact Hhead|].
  rewrite (PinFacts.format_list pr l Hpr Hl), Hhead.
  now rewrite !StrFacts.app_assoc.
Qed.

Lemma header_counts_the_files_witness :
  exists before,
    header_text sample_pr (VList sample_records) = before ++ count_line 2
    /\ format_pr_for_review (pull_request_data sample_pr (VList sample_records))
       = Ok (before ++ count_line 2
               ++ Str.concat_all (map segment_text sample_records)).
Proof.
  exact (header_counts_the_files sample_pr sample_records eq_refl eq_refl).
Defined.

(** X9: a body that is a non-empty str is printed as it is on the line
    after "**Description:**"; the placeholder is not used for it. *)
Theorem body_is_printed_verbatim (pr files : value) (body : string) :
  pr_ok pr = true -> files_ok files = true ->
  Py.getitem pr "body" = Ok (VStr body) -> body <> "" ->
  exists out,
    format_pr_for_review (pull_request_data pr files) = Ok out
    /\ Str.contains ("**Description:**" ++ nl ++ body ++ nl) out = true.
Proof.
  intros Hpr Hfiles Hbody Hne.
  pose proof (FormatCases.format_cases pr files) as H.
  rewrite Hpr, Hfiles in H. destruct H as (segs & _ & Hout).
  eexists. split; [exact Hout|].
  apply SegmentFacts.contains_left.
  unfold header_text, format_header.
  replace (Py.or_ (field "body" pr) (VStr "No description provided"))
    with (VStr body).
  2:{ unfold field. rewrite Hbody. unfold Py.or_. cbn [Py.truthy].
      now rewrite (neq_nonempty _ Hne). }
  cbn [Py.str].
  repeat first [ apply DocFacts.contains_four
               | apply SegmentFacts.contains_right ].
Qed.

Lemma body_is_printed_verbatim_witness :
  exists out,
    format_pr_for_review (pull_request_data described_pr (VList [])) = Ok out
    /\ Str.contains ("**Description:**" ++ nl ++ "Fixes #12" ++ nl) out = true.
Proof.
  apply (body_is_printed_verbatim described_pr (VList []) "Fixes #12");
    try reflexivity.
  discriminate.
Defined.

(** ** Review Generator *)

Module GenerateFacts.

Lemma prompt_ends_with_document pr_text :
  review_prompt pr_text = review_prompt "" ++ pr_text.
Proof.
  unfold review_prompt. rewrite !StrFacts.app_assoc. reflexivity.
Qed.

(** The call and the outcome of one invocation with a client. *)
Lemma generate_cases self c pr_text env tr :
  client self = Some c ->
  generate_review self pr_text env tr
  = (Ok (review_text (messages_create env tr "claude-3-sonnet-20240229" 4000
                        [[("role", "user"); ("content", review_prompt pr_text)]])),
     (tr ++ [completion_of pr_text])%list).
Proof.
  intros Hc. unfold generate_review, review_text, completion_of,
    Eff.try_except, Eff.bind, Eff.create, Eff.lift, Eff.ret.
  rewrite Hc.
  destruct (messages_create env tr _ _ _) as [m|e]; [|reflexivity].
  unfold first_text. destruct (content m) as [|[t|cls] rest]; reflexivity.
Qed.

End GenerateFacts.

(** X10: with a client, one invocation issues exactly one completion
    call, for the model "claude-3-sonnet-20240229" with at most 4000
    tokens and a single user message, whose text is the fixed
    instructions followed by the document as it was given; it issues no
    request to the hosting API and returns a text whatever the call
    does. *)
Theorem generate_review_calls_once self c pr_text env tr :
  client self = Some c ->
  exists text,
    generate_review self pr_text env tr
    = (Ok text,
       (tr ++ [MessagesCreate "claude-3-sonnet-20240229" 4000
                 [[("role", "user");
                   ("content", (review_prompt "" ++ pr_text)%text)]]])%list).
Proof.
  intros Hc. rewrite (GenerateFacts.generate_cases self c pr_text env tr Hc).
  unfold completion_of.
  rewrite <- (GenerateFacts.prompt_ends_with_document pr_text).
  now eexists.
Qed.

Lemma generate_review_calls_once_witness :
  exists text,
    generate_review reviewer_with_key "doc" (status_stub 200) []
    = (Ok text,
       [MessagesCreate "claude-3-sonnet-20240229" 4000
          [[("role", "user"); ("content", review_prompt "" ++ "doc")]]]).
Proof.
  exact (generate_review_calls_once reviewer_with_key {| api_key := "sk-key" |}
           "doc" (status_stub 200) [] eq_refl).
Defined.

(** X11: the text returned is the first block of the answer when that
    block is a text, the later blocks being ignored; in every other case
    (the call raises, the answer has no block, the first block has no
    text) it is "Error generating review: " followed by the text of the
    exception. *)
Theorem generate_review_returns_first_text self c pr_text env tr :
  client self = Some c ->
  let answer := messages_create env tr "claude-3-sonnet-20240229" 4000
                  [[("role", "user"); ("content", review_prompt pr_text)]] in
  (forall t rest,
     answer = Ok (Message (TextBlock t :: rest)) ->
     fst (generate_review self pr_text env tr) = Ok t)
  /\ (forall e,
        answer = Raise e ->
        fst (generate_review self pr_text env tr)
        = Ok ("Error generating review: " ++ exn_str e))
  /\ (answer = Ok (Message []) ->
      fst (generate_review self pr_text env tr)
      = Ok "Error generating review: list index out of range")
  /\ (forall cls rest,
        answer = Ok (Message (OtherBlock cls :: rest)) ->
        fst (generate_review self pr_text env tr)
        = Ok ("Error generating review: '" ++ cls
                ++ "' object has no attribute 'text'")).
Proof.
  intros Hc answer.
  rewrite (GenerateFacts.generate_cases self c pr_text env tr Hc).
  fold answer. cbn [fst]. unfold review_text.
  repeat split.
  - now intros t rest ->.
  - now intros e ->.
  - now intros ->.
  - now intros cls rest ->.
Qed.

Lemma generate_review_returns_first_text_witness :
  fst (generate_review reviewer_with_key "doc" (status_stub 200) [])
  = Ok "Error generating review: Connection error.".
Proof.
  exact (proj1 (proj2 (generate_review_returns_first_text reviewer_with_key
                         {| api_key := "sk-key" |} "doc" (status_stub 200) []
                         eq_refl))
           _ eq_refl).
Defined.

(** ** The page *)

Module UiFacts.

Lemma calls_of_app a b : Ui.calls_of (a ++ b) = (Ui.calls_of a ++ Ui.calls_of b)%list.
Proof. apply flat_map_app. Qed.

Lemma calls_of_calls tr : Ui.calls_of (map Call tr) = tr.
Proof.
  unfold Ui.calls_of. induction tr as [|e tr IH]; [reflexivity|].
  cbn [map flat_map List.app]. now rewrite IH.
Qed.

Lemma service_calls_app a b :
  service_calls (a ++ b) = (service_calls a ++ service_calls b)%list.
Proof. apply flat_map_app. Qed.

Lemma skipn_length_app {X} (l new : list X) :
  skipn (List.length l) (l ++ new) = new.
Proof. induction l as [|x l IH]; [reflexivity | exact IH]. Qed.

(** A method that only adds calls to the trace adds them to the log. *)
Lemma lift_appends {A} (m : M A) env log r new :
  m env (Ui.calls_of log) = (r, (Ui.calls_of log ++ new)%list) ->
  Ui.lift m env log = (r, (log ++ map Call new)%list).
Proof.
  intros H. unfold Ui.lift. rewrite H. now rewrite skipn_length_app.
Qed.

Lemma lift_st_error msg env log :
  Ui.lift (Eff.st_error msg) env log = (Ok tt, (log ++ [Call (StError msg)])%list).
Proof. now apply (lift_appends _ env log (Ok tt) [StError msg]). Qed.

Lemma lift_init getenv env log :
  Ui.lift (init getenv) env log
  = (Ok (reviewer_of getenv),
     (log ++ map Call (missing_credentials getenv))%list).
Proof. apply lift_appends. apply InitFacts.init_cases. Qed.

Lemma lift_fetch self owner repo pr_number env log :
  Ui.lift (fetch_pr_data self owner repo pr_number) env log
  = (fst (fetch_pr_data self owner repo pr_number env (Ui.calls_of log)),
     (log ++ map Call (gets_of self owner repo pr_number env (Ui.calls_of log)))%list).
Proof.
  apply lift_appends. rewrite <- FetchFacts.fetch_trace.
  now destruct (fetch_pr_data _ _ _ _ _ _).
Qed.

Lemma calls_of_head getenv log :
  Ui.calls_of (log ++ page_head getenv)
  = (Ui.calls_of log ++ missing_credentials getenv)%list.
Proof.
  unfold page_head. rewrite !calls_of_app, calls_of_calls. cbn.
  now rewrite app_nil_r.
Qed.

(** The run up to the button. *)
Lemma main_cases getenv float_add github_url clicked env log :
  main getenv float_add github_url clicked env log
  = if clicked
    then review_pr float_add (reviewer_of getenv) github_url env
           (log ++ page_head getenv)%list
    else (Ok tt, (log ++ page_head getenv)%list).
Proof.
  unfold main, Ui.bind, Ui.show, Ui.ret. rewrite lift_init.
  unfold page_head. rewrite <- !app_assoc. cbn [List.app].
  now destruct clicked.
Qed.

(** The parser's result passes the test of the page exactly when it is a
    match. *)
Lemma parse_truthy url :
  parse_github_url url = (VNone, VNone, VNone)
  \/ exists owner repo number,
       parse_github_url url = (VStr owner, VStr repo, VStr number)
       /\ Py.truthy (VStr owner) = true /\ Py.truthy (VStr repo) = true
       /\ Py.truthy (VStr number) = true.
Proof.
  unfold parse_github_url.
  destruct (Re.re_match pattern url) as [gs|] eqn:E; [|now left].
  destruct (re_match_sound _ _ E) as (o & r & n & _ & _ & Ho & Hr & Hn & ->).
  right. exists o, r, n. split; [reflexivity|].
  unfold is_segment, is_digits in *.
  apply andb_true_iff in Ho as [Ho _], Hr as [Hr _], Hn as [Hn _].
  cbn [Py.truthy]. now rewrite Ho, Hr, Hn.
Qed.

End UiFacts.

(** X12: a run in which the button is not pressed, or is pressed on an
    empty or ill-formed URL, ends normally without any request or
    completion: it logs the head of the page and, when the button was
    pressed, one error box that says which of the two checks failed. *)
Theorem main_rejects_before_calling getenv float_add github_url clicked env log :
  clicked = false \/ github_url = ""
  \/ parse_github_url github_url = (VNone, VNone, VNone) ->
  exists new,
    main getenv float_add github_url clicked env log = (Ok tt, (log ++ new)%list)
    /\ service_calls new = []
    /\ new = (page_head getenv
              ++ if clicked
                 then [Call (StError (if github_url =? "" then empty_url_error
                                      else invalid_url_error))]
                 else [])%list.
Proof.
  intros H. rewrite UiFacts.main_cases.
  assert (Hq : forall tail,
            service_calls tail = [] ->
            service_calls (page_head getenv ++ tail) = []).
  { intros tail Ht. rewrite UiFacts.service_calls_app, Ht, app_nil_r.
    unfold page_head, missing_credentials.
    now destruct (nonempty (getenv "GITHUB_TOKEN")),
      (nonempty (getenv "ANTHROPIC_API_KEY")). }
  destruct clicked.
  - unfold review_pr.
    destruct (TextFacts.eqb_spec github_url "") as [->|Hne].
    + rewrite UiFacts.lift_st_error. eexists. rewrite <- app_assoc.
      split; [reflexivity|]. split; [now apply Hq | reflexivity].
    + destruct H as [H | [H | H]]; [discriminate | contradiction |].
      rewrite H. cbn [Py.truthy negb orb].
      rewrite UiFacts.lift_st_error. eexists. rewrite <- app_assoc.
      split; [reflexivity|]. split; [now apply Hq | reflexivity].
  - exists (page_head getenv ++ [])%list.
    split; [now rewrite app_nil_r|]. split; [now apply Hq | reflexivity].
Qed.

Lemma main_rejects_before_calling_witness :
  exists new,
    main (fun _ => None) (fun a _ => a) "github.com/o/r/pull/1" true
      (status_stub 200) []
    = (Ok tt, new)
    /\ service_calls new = []
    /\ new = (page_head (fun _ => None)
              ++ [Call (StError invalid_url_error)])%list.
Proof.
  exact (main_rejects_before_calling (fun _ => None) (fun a _ => a)
           "github.com/o/r/pull/1" true (status_stub 200) []
           (or_intror (or_intror eq_refl))).
Defined.

Module PageFacts.
Import UiFacts.

Lemma fetch_error_truthy self owner repo pr_number env tr data err :
  fst (fetch_pr_data self owner repo pr_number env tr) = Ok (data, err) ->
  (err = VNone /\ exists pr_data files_data,
                    data = pull_request_data pr_data files_data)
  \/ Py.truthy err = true.
Proof.
  destruct (fetch_pr_data_cases self owner repo pr_number env tr) as [tr' ->].
  cbn [fst].
  destruct (metadata_get _ _ _ _ _ _) as [r1|e1]; [|intros [= <- <-]; now right].
  destruct (files_get _ _ _ _ _ _) as [r2|e2]; [|intros [= <- <-]; now right].
  destruct (negb (status_code r1 =? 200)%Z); [intros [= <- <-]; now right|].
  destruct (negb (status_code r2 =? 200)%Z); [intros [= <- <-]; now right|].
  destruct (json r1) as [j1|x1]; [|intros [= <- <-]; now right].
  destruct (json r2) as [j2|x2]; [|intros [= <- <-]; now right].
  intros [= <- <-]. left. split; [reflexivity | now exists j1, j2].
Qed.

Lemma parse_nonempty_url url owner repo number :
  parse_github_url url = (VStr owner, VStr repo, VStr number) ->
  (url =? "") = false.
Proof. destruct url; [discriminate | reflexivity]. Qed.

Lemma parse_passes_check url owner repo number :
  parse_github_url url = (VStr owner, VStr repo, VStr number) ->
  negb (Py.truthy (VStr owner)) || negb (Py.truthy (VStr repo))
  || negb (Py.truthy (VStr number)) = false.
Proof.
  intros H. destruct (parse_truthy url) as [E | (o & r & n & E & Ho & Hr & Hn)].
  - congruence.
  - rewrite H in E. injection E as -> -> ->. now rewrite Ho, Hr, Hn.
Qed.

(** The trace on which the fetcher runs. *)
Lemma calls_at_fetch getenv log w :
  Ui.calls_of ((log ++ page_head getenv) ++ [Show w])
  = (Ui.calls_of log ++ missing_credentials getenv)%list.
Proof. rewrite calls_of_app, calls_of_head. cbn. now rewrite app_nil_r. Qed.

(** The run from the press of the button to the answer of the fetcher,
    on a URL that parses. *)
Lemma review_pr_fetches getenv float_add url owner repo number env log :
  parse_github_url url = (VStr owner, VStr repo, VStr number) ->
  let self := reviewer_of getenv in
  let tr := (Ui.calls_of log ++ missing_credentials getenv)%list in
  let log' := (log ++ page_head getenv
                 ++ [Show (Spinner "Fetching PR data from GitHub...")]
                 ++ map Call (gets_of self (VStr owner) (VStr repo) (VStr number)
                                env tr))%list in
  main getenv float_add url true env log
  = match fst (fetch_pr_data self (VStr owner) (VStr repo) (VStr number) env tr) with
    | Ok (data, error) =>
        if Py.truthy error
        then (Ok tt, (log' ++ [Call (StError (Py.str error))])%list)
        else (Ui.show (Success "✅ PR data fetched successfully!") ;;;
              Ui.show (Columns [1; 1]%Z) ;;;
              show_details float_add data ;;;
              show_review self data ;;;
              show_files data)%ui env log'
    | Raise e => (Raise e, log')
    end.
Proof.
  intros Hparse self tr log'. rewrite main_cases. unfold review_pr.
  rewrite (parse_nonempty_url _ _ _ _ Hparse), Hparse.
  rewrite (parse_passes_check _ _ _ _ Hparse).
  unfold Ui.bind at 1. unfold Ui.show at 1.
  unfold Ui.bind at 1. rewrite lift_fetch, calls_at_fetch.
  fold self tr.
  replace (((log ++ page_head getenv)
              ++ [Show (Spinner "Fetching PR data from GitHub...")])
             ++ map Call (gets_of self (VStr owner) (VStr repo) (VStr number) env tr))%list
    with log' by (unfold log'; now rewrite <- !app_assoc).
  destruct (fst (fetch_pr_data self _ _ _ env tr)) as [[data error]|e];
    [|reflexivity].
  destruct (Py.truthy error); [|reflexivity].
  apply lift_st_error.
Qed.

End PageFacts.

(** X13: when the URL parses and the fetcher comes back with an error,
    the run shows that message in an error box and ends normally there:
    after the requests of the fetcher nothing more is called, so no
    review is asked for data that was not fetched. *)
Theorem main_stops_on_fetch_error
    getenv float_add url owner repo number env log data msg :
  parse_github_url url = (VStr owner, VStr repo, VStr number) ->
  fst (fetch_pr_data (reviewer_of getenv) (VStr owner) (VStr repo) (VStr number)
         env (Ui.calls_of log ++ missing_credentials getenv)%list)
  = Ok (data, VStr msg) ->
  main getenv float_add url true env log
  = (Ok tt,
     (log ++ page_head getenv
        ++ [Show (Spinner "Fetching PR data from GitHub...")]
        ++ map Call (gets_of (reviewer_of getenv) (VStr owner) (VStr repo)
                       (VStr number) env
                       (Ui.calls_of log ++ missing_credentials getenv))
        ++ [Call (StError msg)])%list).
Proof.
  intros Hparse Hfetch.
  rewrite (PageFacts.review_pr_fetches getenv float_add url owner repo number
             env log Hparse).
  cbv zeta. rewrite Hfetch.
  destruct (PageFacts.fetch_error_truthy _ _ _ _ _ _ _ _ Hfetch) as [[E _] | ->];
    [discriminate|].
  cbn [Py.str]. now rewrite <- !app_assoc.
Qed.

Lemma main_stops_on_fetch_error_witness :
  main (fun _ => None) (fun a _ => a) "https://github.com/o/r/pull/1" true
    (status_stub 404) []
  = (Ok tt,
     ([] ++ page_head (fun _ => None)
        ++ [Show (Spinner "Fetching PR data from GitHub...")]
        ++ map Call (gets_of (reviewer_of (fun _ => None)) (VStr "o") (VStr "r")
                       (VStr "1") (status_stub 404)
                       (Ui.calls_of [] ++ missing_credentials (fun _ => None)))
        ++ [Call (StError "Error fetching PR: 404")])%list).
Proof.
  exact (main_stops_on_fetch_error (fun _ => None) (fun a _ => a)
           "https://github.com/o/r/pull/1" "o" "r" "1" (status_stub 404) []
           VNone "Error fetching PR: 404" eq_refl eq_refl).
Defined.

Module EmitFacts.
Import UiFacts.

Lemma bind_run {A B} (m : UI A) (f : A -> UI B) env log :
  Ui.bind m f env log
  = match fst (m env log) with
    | Ok a => f a env (snd (m env log))
    | Raise e => (Raise e, snd (m env log))
    end.
Proof. unfold Ui.bind. now destruct (m env log) as [[a|e] l]. Qed.

Lemma quiet_ret {A} (a : A) : quiet (Ui.ret a).
Proof. intros env log. exists []. now rewrite app_nil_r. Qed.

Lemma quiet_pure {A} (r : result A) : quiet (Ui.pure r).
Proof. intros env log. exists []. now rewrite app_nil_r. Qed.

Lemma quiet_show w : quiet (Ui.show w).
Proof. intros env log. now exists [Show w]. Qed.

Lemma quiet_st_error msg : quiet (Ui.lift (Eff.st_error msg)).
Proof.
  intros env log. rewrite lift_st_error. now exists [Call (StError msg)].
Qed.

(** Calls of a sequence whose first part is quiet. *)
Lemma emits_after_quiet {A B} (m : UI A) (f : A -> UI B) (P : trace -> Prop) :
  quiet m -> (forall a, emits (f a) P) -> P [] -> emits (Ui.bind m f) P.
Proof.
  intros Hm Hf HP env log. rewrite bind_run.
  destruct (Hm env log) as (n1 & E1 & Q1).
  destruct (fst (m env log)) as [a|e].
  - destruct (Hf a env (snd (m env log))) as (n2 & E2 & Q2).
    exists (n1 ++ n2)%list. rewrite E2, E1, <- app_assoc.
    split; [reflexivity|]. now rewrite service_calls_app, Q1.
  - exists n1. cbn [snd]. split; [exact E1 | now rewrite Q1].
Qed.

(** Calls of a sequence whose second part is quiet. *)
Lemma emits_before_quiet {A B} (m : UI A) (f : A -> UI B) (P : trace -> Prop) :
  emits m P -> (forall a, quiet (f a)) -> emits (Ui.bind m f) P.
Proof.
  intros Hm Hf env log. rewrite bind_run.
  destruct (Hm env log) as (n1 & E1 & Q1).
  destruct (fst (m env log)) as [a|e].
  - destruct (Hf a env (snd (m env log))) as (n2 & E2 & Q2).
    exists (n1 ++ n2)%list. rewrite E2, E1, <- app_assoc.
    split; [reflexivity|]. now rewrite service_calls_app, Q2, app_nil_r.
  - exists n1. cbn [snd]. now split.
Qed.

Lemma quiet_bind {A B} (m : UI A) (f : A -> UI B) :
  quiet m -> (forall a, quiet (f a)) -> quiet (Ui.bind m f).
Proof. intros Hm Hf. now apply emits_after_quiet. Qed.

Lemma quiet_for_each {X} (body : X -> UI unit) (xs : list X) :
  (forall x, quiet (body x)) -> quiet (Ui.for_each xs body).
Proof.
  intros Hb. induction xs as [|x xs IH]; cbn [Ui.for_each].
  - apply quiet_ret.
  - apply quiet_bind; [apply Hb | intros _; exact IH].
Qed.

Ltac quiet :=
  repeat first
    [ apply quiet_show | apply quiet_pure | apply quiet_ret
    | apply quiet_st_error
    | apply quiet_bind; [|intros ?]
    | match goal with
      | |- quiet (if ?b then _ else _) => destruct b
      end ].

Lemma show_details_quiet float_add data : quiet (show_details float_add data).
Proof. unfold show_details. quiet. Qed.

Lemma show_file_quiet file : quiet (show_file file).
Proof. unfold show_file. quiet. Qed.

Lemma show_files_quiet data : quiet (show_files data).
Proof.
  unfold show_files. quiet. apply quiet_for_each. apply show_file_quiet.
Qed.

(** The generator behind [lift]: no call without a client, the one
    completion with one. *)
Lemma lift_generate self pr_text env log :
  Ui.lift (generate_review self pr_text) env log
  = (fst (generate_review self pr_text env (Ui.calls_of log)),
     (log ++ match client self with
             | Some _ => [Call (completion_of pr_text)]
             | None => []
             end)%list).
Proof.
  destruct (client self) as [c|] eqn:Ec.
  - rewrite (lift_appends _ env log _ [completion_of pr_text]
               (GenerateFacts.generate_cases self c pr_text env _ Ec)).
    now rewrite (GenerateFacts.generate_cases self c pr_text env _ Ec).
  - unfold Ui.lift, generate_review. rewrite Ec. unfold Eff.ret.
    cbn [fst]. now rewrite skipn_all.
Qed.

Lemma show_review_emits self data :
  emits (show_review self data) (review_calls self data).
Proof.
  unfold show_review.
  do 3 (apply emits_after_quiet; [apply quiet_show | intros _ | now left]).
  intros env log. rewrite bind_run. cbn [Ui.pure fst snd].
  destruct (format_pr_for_review data) as [doc|e] eqn:Ef.
  - rewrite bind_run, lift_generate. cbn [fst snd].
    destruct (fst (generate_review self doc env (Ui.calls_of log))) as [review|e].
    + eexists. unfold Ui.show. cbn [snd]. rewrite <- app_assoc.
      split; [reflexivity|]. rewrite service_calls_app.
      destruct (client self) as [c|] eqn:Ec; [|now left].
      right. now exists doc, c.
    + eexists. cbn [snd]. split; [reflexivity|].
      destruct (client self) as [c|] eqn:Ec; [|now left].
      right. now exists doc, c.
  - exists []. cbn [snd]. split; [now rewrite app_nil_r | now left].
Qed.

(** The part of the run that follows a successful fetch. *)
Lemma display_emits float_add self data :
  emits (Ui.show (Success "✅ PR data fetched successfully!") ;;;
         Ui.show (Columns [1; 1]%Z) ;;;
         show_details float_add data ;;;
         show_review self data ;;;
         show_files data)%ui
        (review_calls self data).
Proof.
  do 2 (apply emits_after_quiet; [apply quiet_show | intros _ | now left]).
  apply emits_after_quiet; [apply show_details_quiet | intros _ | now left].
  apply emits_before_quiet; [apply show_review_emits | intros _].
  apply show_files_quiet.
Qed.

Lemma head_quiet getenv : service_calls (page_head getenv) = [].
Proof.
  unfold page_head, missing_credentials.
  now destruct (nonempty (getenv "GITHUB_TOKEN")),
    (nonempty (getenv "ANTHROPIC_API_KEY")).
Qed.

Lemma gets_are_calls self owner repo pr_number env tr :
  service_calls (map Call (gets_of self owner repo pr_number env tr))
  = gets_of self owner repo pr_number env tr.
Proof. unfold gets_of. now destruct (metadata_get _ _ _ _ _ _). Qed.

End EmitFacts.

(** X14: in every run, whatever the inputs and the answers of the
    services, the calls made are, in this order: nothing; or the requests
    of one fetch for the parsed owner, repository and number; or those
    requests followed by one completion, which happens only when the
    fetcher returned data without an error, a client is configured, and
    the formatter made a document of the data: the completion is for this
    document.  No other request or completion is ever made. *)
Theorem main_calls_in_order getenv float_add url clicked env log :
  exists new,
    snd (main getenv float_add url clicked env log) = (log ++ new)%list
    /\ (service_calls new = []
        \/ exists owner repo number,
             parse_github_url url = (VStr owner, VStr repo, VStr number)
             /\ let self := reviewer_of getenv in
                let tr := (Ui.calls_of log ++ missing_credentials getenv)%list in
                let gets :=
                  gets_of self (VStr owner) (VStr repo) (VStr number) env tr in
                service_calls new = gets
                \/ exists data doc c,
                     fst (fetch_pr_data self (VStr owner) (VStr repo)
                            (VStr number) env tr) = Ok (data, VNone)
                     /\ format_pr_for_review data = Ok doc
                     /\ client self = Some c
                     /\ service_calls new = (gets ++ [completion_of doc])%list).
Proof.
  destruct clicked.
  2:{ rewrite UiFacts.main_cases. exists (page_head getenv).
      split; [reflexivity | left; apply EmitFacts.head_quiet]. }
  destruct (UiFacts.parse_truthy url) as [E | (o & r & n & E & _)].
  { rewrite UiFacts.main_cases. unfold review_pr. rewrite E.
    cbn [Py.truthy negb orb].
    destruct (url =? ""); rewrite UiFacts.lift_st_error; eexists;
      rewrite <- app_assoc; (split; [reflexivity|]); left;
      now rewrite UiFacts.service_calls_app, EmitFacts.head_quiet. }
  rewrite (PageFacts.review_pr_fetches getenv float_add url o r n env log E).
  cbv zeta.
  set (self := reviewer_of getenv).
  set (tr := (Ui.calls_of log ++ missing_credentials getenv)%list).
  set (gets := gets_of self (VStr o) (VStr r) (VStr n) env tr).
  set (log' := (log ++ page_head getenv
                  ++ [Show (Spinner "Fetching PR data from GitHub...")]
                  ++ map Call gets)%list).
  assert (Hlog' : forall tail,
            service_calls (page_head getenv
                             ++ [Show (Spinner "Fetching PR data from GitHub...")]
                             ++ map Call gets ++ tail)
            = (gets ++ service_calls tail)%list).
  { intros tail. rewrite !UiFacts.service_calls_app, EmitFacts.head_quiet.
    unfold gets. now rewrite EmitFacts.gets_are_calls. }
  destruct (fst (fetch_pr_data self (VStr o) (VStr r) (VStr n) env tr))
    as [[data error]|e] eqn:Ef.
  2:{ eexists. cbn [snd]. unfold log'. split; [reflexivity|].
      right. exists o, r, n. split; [exact E|]. left.
      specialize (Hlog' []). rewrite !app_nil_r in Hlog'. exact Hlog'. }
  destruct (Py.truthy error) eqn:Et.
  { eexists. cbn [snd]. unfold log'. rewrite <- !app_assoc.
    split; [reflexivity|]. right. exists o, r, n. split; [exact E|]. left.
    rewrite Hlog'.
    change (service_calls [Call (StError (Py.str error))]) with (@nil event).
    apply app_nil_r. }
  destruct (PageFacts.fetch_error_truthy _ _ _ _ _ _ _ _ Ef) as [[-> _] | Ht];
    [|congruence].
  destruct (EmitFacts.display_emits float_add self data env log')
    as (tail & Etail & Hcalls).
  rewrite Etail. unfold log'. exists
    (page_head getenv ++ [Show (Spinner "Fetching PR data from GitHub...")]
       ++ map Call gets ++ tail)%list.
  split; [now rewrite <- !app_assoc|].
  right. exists o, r, n. split; [exact E|]. rewrite Hlog'.
  destruct Hcalls as [-> | (doc & c & Hdoc & Hc & ->)].
  - left. apply app_nil_r.
  - right. now exists data, doc, c.
Qed.

(** X15: when the fetched data lacks a field the formatter reads, the
    run ends with an uncaught exception, raised in the details column or
    by the formatter, and it ends before the generator is reached: the
    only calls made are the requests of the fetch. *)
Theorem main_faults_before_generating
    getenv float_add url owner repo number env log pr files :
  parse_github_url url = (VStr owner, VStr repo, VStr number) ->
  fst (fetch_pr_data (reviewer_of getenv) (VStr owner) (VStr repo) (VStr number)
         env (Ui.calls_of log ++ missing_credentials getenv)%list)
  = Ok (pull_request_data pr files, VNone) ->
  pr_ok pr && files_ok files = false ->
  exists e new,
    main getenv float_add url true env log = (Raise e, (log ++ new)%list)
    /\ service_calls new
       = gets_of (reviewer_of getenv) (VStr owner) (VStr repo) (VStr number)
           env (Ui.calls_of log ++ missing_credentials getenv)%list.
Proof.
  intros Hparse Hfetch Hbad.
  rewrite (PageFacts.review_pr_fetches getenv float_add url owner repo number
             env log Hparse).
  cbv zeta. rewrite Hfetch. cbn [Py.truthy].
  set (self := reviewer_of getenv).
  set (tr := (Ui.calls_of log ++ missing_credentials getenv)%list).
  set (gets := gets_of self (VStr owner) (VStr repo) (VStr number) env tr).
  set (data := pull_request_data pr files).
  set (log' := (log ++ page_head getenv
                  ++ [Show (Spinner "Fetching PR data from GitHub...")]
                  ++ map Call gets)%list).
  assert (Hlog' : forall tail,
            service_calls tail = [] ->
            exists new,
              (log' ++ tail = log ++ new)%list /\ service_calls new = gets).
  { intros tail Ht. eexists. unfold log'. rewrite <- !app_assoc.
    split; [reflexivity|].
    rewrite !UiFacts.service_calls_app, EmitFacts.head_quiet, Ht.
    unfold gets. rewrite EmitFacts.gets_are_calls.
    change (service_calls [Show (Spinner "Fetching PR data from GitHub...")])
      with (@nil event).
    cbn [List.app]. apply app_nil_r. }
  pose proof (FormatCases.format_cases pr files) as Hformat.
  rewrite Hbad in Hformat. destruct Hformat as (e & Hformat & _).
  fold data in Hformat.
  rewrite EmitFacts.bind_run. cbn [Ui.show fst snd].
  rewrite EmitFacts.bind_run. cbn [Ui.show fst snd].
  rewrite EmitFacts.bind_run.
  destruct (EmitFacts.show_details_quiet float_add data env
              ((log' ++ [Show (Success "✅ PR data fetched successfully!")])
                 ++ [Show (Columns [1; 1]%Z)])%list)
    as (d & Ed & Qd).
  rewrite Ed.
  destruct (fst (show_details float_add data env _)) as [[]|e'].
  - rewrite EmitFacts.bind_run. unfold show_review.
    unfold Ui.bind, Ui.show, Ui.pure. rewrite Hformat. cbn [fst snd].
    destruct (Hlog' ([Show (Success "✅ PR data fetched successfully!")]
                       ++ [Show (Columns [1; 1]%Z)] ++ d
                       ++ [Show (Within "col2");
                           Show (Subheader "🤖 AI Review");
                           Show (Spinner "Generating AI review with Claude...")])%list)
      as (new & Enew & Qnew).
    { rewrite !UiFacts.service_calls_app, Qd. reflexivity. }
    exists e, new. split; [|exact Qnew].
    rewrite <- Enew. now rewrite <- !app_assoc.
  - destruct (Hlog' ([Show (Success "✅ PR data fetched successfully!")]
                       ++ [Show (Columns [1; 1]%Z)] ++ d)%list)
      as (new & Enew & Qnew).
    { rewrite !UiFacts.service_calls_app, Qd. reflexivity. }
    exists e', new. split; [|exact Qnew].
    rewrite <- Enew. now rewrite <- !app_assoc.
Qed.

Lemma main_faults_before_generating_witness :
  exists e new,
    main (fun _ => None) (fun a _ => a) "https://github.com/o/r/pull/1" true
      (status_stub 200) []
    = (Raise e, ([] ++ new)%list)
    /\ service_calls new
       = gets_of (reviewer_of (fun _ => None)) (VStr "o") (VStr "r") (VStr "1")
           (status_stub 200)
           (Ui.calls_of [] ++ missing_credentials (fun _ => None))%list.
Proof.
  exact (main_faults_before_generating (fun _ => None) (fun a _ => a)
           "https://github.com/o/r/pull/1" "o" "r" "1" (status_stub 200) []
           (VDict []) (VDict []) eq_refl eq_refl eq_refl).
Defined.

Module DisplayFacts.
Import UiFacts.

Lemma bind_show {B} w (f : unit -> UI B) env log :
  Ui.bind (Ui.show w) f env log = f tt env (log ++ [Show w])%list.
Proof. reflexivity. Qed.

Lemma bind_pure {A B} (r : result A) (a : A) (f : A -> UI B) env log :
  r = Ok a -> Ui.bind (Ui.pure r) f env log = f a env log.
Proof. now intros ->. Qed.

Lemma lookup_field k d :
  has_key k d = true -> Py.getitem (VDict d) k = Ok (field k (VDict d)).
Proof.
  unfold has_key, field. cbn [Py.getitem].
  now destruct (Py.lookup k d).
Qed.

(** The fields of well-formed metadata are there to be read. *)
Lemma pr_ok_fields pr :
  pr_ok pr = true ->
  Py.getitem pr "title" = Ok (field "title" pr)
  /\ Py.getitem pr "user" = Ok (field "user" pr)
  /\ Py.getitem (field "user" pr) "login" = Ok (field "login" (field "user" pr))
  /\ Py.getitem pr "state" = Ok (field "state" pr)
  /\ Py.getitem pr "body" = Ok (field "body" pr).
Proof.
  destruct pr; try discriminate. cbn [pr_ok]. intros H.
  repeat (apply andb_true_iff in H as [H ?]).
  repeat split; try now apply lookup_field.
  - unfold field. cbn [Py.getitem].
    destruct (Py.lookup "user" d) as [[]|]; try discriminate. reflexivity.
  - unfold field at 1 3. cbn [Py.getitem].
    destruct (Py.lookup "user" d) as [[]|]; try discriminate.
    now apply lookup_field.
Qed.








End DisplayFacts.

Module SuccessFacts.
Import UiFacts.






End SuccessFacts.



(** The run on the sample: two requests, one completion, the review
    shown. *)
Example sample_run_calls :
  service_calls
    (snd (main both_set no_floats "https://github.com/o/r/pull/1" true
            sample_services []))
  = [HttpGet "https://api.github.com/repos/o/r/pulls/1"
       [("Authorization", "token secret");
        ("Accept", "application/vnd.github.v3+json")];
     HttpGet "https://api.github.com/repos/o/r/pulls/1/files"
       [("Authorization", "token secret");
        ("Accept", "application/vnd.github.v3+json")];
     completion_of
       match format_pr_for_review
               (pull_request_data described_pr (VList sample_records)) with
       | Ok doc => doc
       | Raise _ => ""
       end].
Proof. vm_compute. reflexivity. Qed.

Module TextCountFacts.

Lemma show_details_text_count float_add pr file rest s env log :
  pr_ok pr = true ->
  Py.getitem file "additions" = Ok (VStr s) ->
  exists e new,
    show_details float_add (pull_request_data pr (VList (file :: rest))) env log
    = (Raise e, (log ++ new)%list)
    /\ exn_cls e = TypeError /\ service_calls new = [].
Proof.
  intros Hpr Hadd.
  destruct (DisplayFacts.pr_ok_fields pr Hpr) as (Ht & Hu & Hlg & Hs & Hb).
  unfold show_details.
  rewrite !DisplayFacts.bind_show.
  rewrite (DisplayFacts.bind_pure _ _ _ _ _ (FormatCases.data_pr pr _)).
  rewrite (DisplayFacts.bind_pure _ _ _ _ _ Ht), DisplayFacts.bind_show.
  rewrite (DisplayFacts.bind_pure _ _ _ _ _ Hu),
    (DisplayFacts.bind_pure _ _ _ _ _ Hlg), DisplayFacts.bind_show.
  rewrite (DisplayFacts.bind_pure _ _ _ _ _ Hs), DisplayFacts.bind_show.
  rewrite (DisplayFacts.bind_pure _ _ _ _ _ (FormatCases.data_files pr _)).
  rewrite (DisplayFacts.bind_pure _ (Z.of_nat (List.length (file :: rest)))
             _ _ _ eq_refl), DisplayFacts.bind_show.
  rewrite (DisplayFacts.bind_pure _ _ _ _ _ (FormatCases.data_files pr _)).
  rewrite (DisplayFacts.bind_pure _ (file :: rest) _ _ _ eq_refl).
  rewrite EmitFacts.bind_run. unfold PySum.sum_of.
  cbn [Ui.pure Py.for_each fst snd]. rewrite Hadd.
  cbn [bind PySum.add PySum.int_of raise fst snd].
  do 2 eexists. rewrite <- !app_assoc.
  split; [reflexivity|]. split; reflexivity.
Qed.

End TextCountFacts.

(** X17: the details column adds the counts up, so it needs them to be
    numbers where the formatter only prints them: when the first file
    record of well-formed data has a str for "additions", the run ends
    with an uncaught [TypeError] in that column, having made no call
    beyond the requests of the fetch. *)
Theorem main_faults_on_text_counts
    getenv float_add url owner repo number env log pr file rest s :
  parse_github_url url = (VStr owner, VStr repo, VStr number) ->
  fst (fetch_pr_data (reviewer_of getenv) (VStr owner) (VStr repo) (VStr number)
         env (Ui.calls_of log ++ missing_credentials getenv)%list)
  = Ok (pull_request_data pr (VList (file :: rest)), VNone) ->
  pr_ok pr = true ->
  Py.getitem file "additions" = Ok (VStr s) ->
  exists e new,
    main getenv float_add url true env log = (Raise e, (log ++ new)%list)
    /\ exn_cls e = TypeError
    /\ service_calls new
       = gets_of (reviewer_of getenv) (VStr owner) (VStr repo) (VStr number)
           env (Ui.calls_of log ++ missing_credentials getenv)%list.
Proof.
  intros Hparse Hfetch Hpr Hadd.
  rewrite (PageFacts.review_pr_fetches getenv float_add url owner repo number
             env log Hparse).
  cbv zeta. rewrite Hfetch. cbn [Py.truthy].
  rewrite !DisplayFacts.bind_show.
  rewrite EmitFacts.bind_run.
  match goal with
  | |- context [show_details _ _ env ?L] =>
      destruct (TextCountFacts.show_details_text_count float_add pr file rest s
                  env L Hpr Hadd) as (e & shown & -> & He & Qshown)
  end.
  cbn [fst snd]. do 2 eexists. rewrite <- !app_assoc.
  split; [reflexivity|]. split; [exact He|].
  rewrite !UiFacts.service_calls_app, EmitFacts.head_quiet,
    EmitFacts.gets_are_calls, Qshown.
  cbn [service_calls flat_map List.app]. now rewrite !app_nil_r.
Qed.

Lemma main_faults_on_text_counts_witness :
  exists e new,
    main both_set no_floats "https://github.com/o/r/pull/1" true
      text_count_services []
    = (Raise e, ([] ++ new)%list)
    /\ exn_cls e = TypeError
    /\ service_calls new
       = gets_of (reviewer_of both_set) (VStr "o") (VStr "r") (VStr "1")
           text_count_services
           (Ui.calls_of [] ++ missing_credentials both_set)%list.
Proof.
  exact (main_faults_on_text_counts both_set no_floats
           "https://github.com/o/r/pull/1" "o" "r" "1" text_count_services []
           described_pr
           (VDict [("filename", VStr "a.py"); ("status", VStr "added");
                   ("additions", VStr "3"); ("deletions", VInt 0)])
           [] "3" eq_refl eq_refl eq_refl eq_refl).
Defined.
